(** * Stock Data Explorer: a shallow embedding of [stock_explorer.py]

    The script is a text-menu program around one in-memory list of
    statistics records ([all_stocks]), a remote price source (yfinance),
    CSV files in the working directory and a plotting library.

    Conventions of the embedding:
    - a Python [str] is a [string] whose characters are read as code points
      below 256;
    - a Python [int] is a [Z]; a [dict] with string keys is a [gmap string _];
    - console input is the list of lines still to be read, console output the
      list of texts written so far (one entry per [print] or prompt);
    - the working directory is a [gmap] from file names to CSV contents, a
      content being the list of records the [csv] module reads from the file;
    - an uncaught Python exception is an [exn] carried by [Raise];
    - the remote price source, the clock and the floating-point routines of
      pandas are fields of the class [Env]. *)

From Stdlib Require Import ZArith Lia Ascii.
From stdpp Require Import base option list strings gmap pretty.


(** ** Python string methods *)

Definition ord (c : ascii) : Z := Z.of_N (N_of_ascii c).

(** [str.isspace] on one character (code points below 256). *)
Definition isspace (c : ascii) : bool :=
  ((9 <=? ord c)%Z && (ord c <=? 13)%Z) ||
  ((28 <=? ord c)%Z && (ord c <=? 32)%Z) ||
  (ord c =? 133)%Z || (ord c =? 160)%Z.

Fixpoint lstrip_with (p : ascii → bool) (s : string) : string :=
  match s with
  | String c s' => if p c then lstrip_with p s' else s
  | EmptyString => EmptyString
  end.

Fixpoint rstrip_with (p : ascii → bool) (s : string) : string :=
  match s with
  | String c s' =>
      let r := rstrip_with p s' in
      if p c && String.eqb r "" then "" else String c r
  | EmptyString => EmptyString
  end.

(** [s.strip()] *)
Definition strip (s : string) : string := rstrip_with isspace (lstrip_with isspace s).

Fixpoint contains_char (c : ascii) (chars : string) : bool :=
  match chars with
  | String c' r => Ascii.eqb c c' || contains_char c r
  | EmptyString => false
  end.

(** [s.strip(chars)] *)
Definition strip_chars (chars s : string) : string :=
  rstrip_with (λ c, contains_char c chars) (lstrip_with (λ c, contains_char c chars) s).

Definition lower_char (c : ascii) : ascii :=
  if ((65 <=? ord c)%Z && (ord c <=? 90)%Z) ||
     ((192 <=? ord c)%Z && (ord c <=? 222)%Z && negb (ord c =? 215)%Z)
  then ascii_of_N (N_of_ascii c + 32) else c.

(** [s.lower()] *)
Fixpoint lower (s : string) : string :=
  match s with
  | String c s' => String (lower_char c) (lower s')
  | EmptyString => EmptyString
  end.

(** [s.replace(old, new)] for one-character [old] and [new]. *)
Fixpoint replace (old new : ascii) (s : string) : string :=
  match s with
  | String c s' => String (if Ascii.eqb c old then new else c) (replace old new s')
  | EmptyString => EmptyString
  end.

(** [s.endswith(suffix)] *)
Fixpoint endswith (s suffix : string) : bool :=
  if String.eqb s suffix then true
  else match s with
       | String _ s' => endswith s' suffix
       | EmptyString => false
       end.

Fixpoint startswith (s prefix : string) : bool :=
  match prefix, s with
  | EmptyString, _ => true
  | String p prefix', String c s' => Ascii.eqb c p && startswith s' prefix'
  | String _ _, EmptyString => false
  end.

(** [sep in s] for a one-character [sep] is [contains_char sep s]. *)

Fixpoint split_go (sep : string) (skip : nat) (cur : string) (s : string) : list string :=
  match s with
  | EmptyString => [String.rev cur]
  | String c s' =>
      match skip with
      | S k => split_go sep k cur s'
      | O =>
          if startswith s sep
          then String.rev cur :: split_go sep (String.length sep - 1) "" s'
          else split_go sep 0 (String c cur) s'
      end
  end.

(** [s.split(sep)] for a non-empty separator. *)
Definition split (sep s : string) : list string := split_go sep 0 "" s.

Definition nl : string := String (ascii_of_N 10) "".

(** Text of several lines, written in the source with newline escapes. *)
Fixpoint lines (l : list string) : string :=
  match l with
  | [] => ""
  | [x] => x
  | x :: r => x +:+ nl +:+ lines r
  end.

(** ** [int(text)] *)

Definition digit (c : ascii) : option Z :=
  if (48 <=? ord c)%Z && (ord c <=? 57)%Z then Some (ord c - 48)%Z else None.

(** Digits, single underscores allowed between two digits. *)
Fixpoint int_digits (acc : Z) (after_digit : bool) (s : string) : option Z :=
  match s with
  | EmptyString => if after_digit then Some acc else None
  | String c s' =>
      match digit c with
      | Some d => int_digits (10 * acc + d)%Z true s'
      | None =>
          if Ascii.eqb c "_"%char && after_digit then int_digits acc false s' else None
      end
  end.

(** [int(s)] in base ten: surrounding white space, an optional sign, digits.
    [None] stands for [ValueError].  The interpreter's configurable cap on
    the number of digits is left out: above it [int] raises [ValueError]
    too, and every caller below rejects the input on either path. *)
Definition py_int (s : string) : option Z :=
  match strip s with
  | String "+"%char r => int_digits 0 false r
  | String "-"%char r => Z.opp <$> int_digits 0 false r
  | r => int_digits 0 false r
  end.

(** ** Calendar dates: [datetime.date] and [strptime] *)

Record date := Date { year : Z; month : Z; day : Z }.

Global Instance date_eq_dec : EqDecision date.
Proof. solve_decision. Defined.

Definition is_leap (y : Z) : bool :=
  (y mod 4 =? 0)%Z && (negb (y mod 100 =? 0)%Z || (y mod 400 =? 0)%Z).

Definition days_in_month (y m : Z) : Z :=
  if (m =? 2)%Z then (if is_leap y then 29 else 28)%Z
  else if (m =? 4)%Z || (m =? 6)%Z || (m =? 9)%Z || (m =? 11)%Z then 30%Z
  else 31%Z.

(** The range check of the [date] constructor. *)
Definition valid_date (d : date) : bool :=
  (1 <=? year d)%Z && (year d <=? 9999)%Z &&
  (1 <=? month d)%Z && (month d <=? 12)%Z &&
  (1 <=? day d)%Z && (day d <=? days_in_month (year d) (month d))%Z.

(** [datetime.date(y, m, d)]; [None] stands for [ValueError]. *)
Definition date_new (y m d : Z) : option date :=
  if valid_date (Date y m d) then Some (Date y m d) else None.

(** Comparison of dates, as [<], [>] and [>=] of [datetime.date]. *)
Definition date_lt (a b : date) : bool :=
  (year a <? year b)%Z ||
  ((year a =? year b)%Z &&
   ((month a <? month b)%Z || ((month a =? month b)%Z && (day a <? day b)%Z))).
Definition date_gt (a b : date) : bool := date_lt b a.
Definition date_ge (a b : date) : bool := negb (date_lt a b).

Definition digit_char (n : Z) : ascii := ascii_of_N (Z.to_N (48 + n mod 10)).

Definition pad2 (n : Z) : string :=
  String (digit_char (n / 10)) (String (digit_char n) "").
Definition pad4 (n : Z) : string :=
  String (digit_char (n / 1000)) (String (digit_char (n / 100))
    (String (digit_char (n / 10)) (String (digit_char n) ""))).

(** [str(d)] of a [datetime.date]: the ISO form, zero padded. *)
Definition isoformat (d : date) : string :=
  pad4 (year d) +:+ "-" +:+ pad2 (month d) +:+ "-" +:+ pad2 (day d).

(** A regular-expression matcher yields its matches in backtracking order,
    each with the text left after it. *)
Definition matcher (A : Type) : Type := string → list (A * string).

Definition m_ret {A} (a : A) : matcher A := λ s, [(a, s)].
Definition m_bind {A B} (m : matcher A) (k : A → matcher B) : matcher B :=
  λ s, '(a, r) ← m s; k a r.
Definition m_alt {A} (m1 m2 : matcher A) : matcher A := λ s, m1 s ++ m2 s.

(** One digit in the class [[lo-hi]]. *)
Definition m_digit (lo hi : Z) : matcher Z := λ s,
  match s with
  | String c r =>
      match digit c with
      | Some d => if (lo <=? d)%Z && (d <=? hi)%Z then [(d, r)] else []
      | None => []
      end
  | EmptyString => []
  end.

Definition m_char (c : ascii) : matcher () := λ s,
  match s with
  | String c' r => if Ascii.eqb c' c then [((), r)] else []
  | EmptyString => []
  end.

Definition m_two (lo1 hi1 lo2 hi2 : Z) : matcher Z :=
  m_bind (m_digit lo1 hi1) (λ a, m_bind (m_digit lo2 hi2) (λ b, m_ret (10 * a + b)%Z)).

(** The directive [%Y]: four digits. *)
Definition re_Y : matcher Z :=
  m_bind (m_digit 0 9) (λ a, m_bind (m_digit 0 9) (λ b,
  m_bind (m_digit 0 9) (λ c, m_bind (m_digit 0 9) (λ d,
  m_ret (1000 * a + 100 * b + 10 * c + d)%Z)))).

(** The directive [%m]: [1[0-2]|0[1-9]|[1-9]]. *)
Definition re_m : matcher Z :=
  m_alt (m_two 1 1 0 2) (m_alt (m_two 0 0 1 9) (m_digit 1 9)).

(** The directive [%d]: [3[01]|[12]\d|0[1-9]|[1-9]| [1-9]]. *)
Definition re_d : matcher Z :=
  m_alt (m_two 3 3 0 1) (m_alt (m_two 1 2 0 9) (m_alt (m_two 0 0 1 9)
    (m_alt (m_digit 1 9) (m_bind (m_char " "%char) (λ _, m_digit 1 9))))).

(** The pattern of ["-%m-%d"] and that of ["%Y-%m-%d"]. *)
Definition re_m_d : matcher (Z * Z) :=
  m_bind (m_char "-"%char) (λ _, m_bind re_m (λ m,
  m_bind (m_char "-"%char) (λ _, m_bind re_d (λ d, m_ret (m, d))))).

Definition re_Y_m_d : matcher (Z * Z * Z) :=
  m_bind re_Y (λ y, m_bind re_m_d (λ md, m_ret (y, md.1, md.2))).

(** [datetime.datetime.strptime(s, "%Y-%m-%d").date()]: the first match of
    the pattern at the start of [s] must use up [s], and its three numbers
    must form a date.  [None] stands for [ValueError], the only exception
    [strptime] raises on a [str]. *)
Definition strptime_Y_m_d (s : string) : option date :=
  match re_Y_m_d s with
  | (y, m, d, rest) :: _ =>
      if String.eqb rest "" then date_new y m d else None
  | [] => None
  end.

(** ** Console, files and exceptions *)

Inductive exn :=
| EOFError
| SystemExit (message : string)
| KeyError (key : string)
| IndexError
| ValueError.

(** A statistics record: the dictionary with the keys [stat1] to [stat14]. *)
Abbreviation dict := (gmap string string).

(** A CSV file as the [csv] module reads it: one list of fields per record,
    the header record first. *)
Abbreviation csv_file := (list (list string)).

Record world := World {
  stdout : list string;
  files : gmap string csv_file;
  figures : list string
}.

Definition print (text : string) (w : world) : world :=
  World (stdout w ++ [text]) (files w) (figures w).

Definition write_file (name : string) (content : csv_file) (w : world) : world :=
  World (stdout w) (<[name := content]> (files w)) (figures w).

(** [plt.show()] of a figure, recorded by the title of the figure. *)
Definition show_figure (title : string) (w : world) : world :=
  World (stdout w) (files w) (figures w ++ [title]).

(** How a call ends: with a value or with an uncaught exception, in both
    cases with the console and the files as the call left them.  A function
    that reads the console returns the lines it has not read with its value. *)
Inductive outcome (A : Type) :=
| Ret (a : A) (w : world)
| Raise (e : exn) (w : world).
Global Arguments Ret {A} a w.
Global Arguments Raise {A} e w.

Definition obind {A B} (o : outcome A) (k : A → world → outcome B) : outcome B :=
  match o with
  | Ret a w => k a w
  | Raise e w => Raise e w
  end.

Notation "'let*' x , w := o 'in' k" := (obind o (λ x w, k))
  (at level 10, x pattern, w name, o at level 100, k at level 200).

(** A computation without effects that may raise. *)
Definition lift {A} (r : exn + A) (w : world) : outcome A :=
  match r with
  | inl e => Raise e w
  | inr a => Ret a w
  end.

(** [d[key]] *)
Definition getitem {V} (d : gmap string V) (key : string) : exn + V :=
  match d !! key with
  | Some v => inr v
  | None => inl (KeyError key)
  end.

(** The key [f"stat{i + 1}"]. *)
Definition stat_key (i : nat) : string := "stat" +:+ pretty (i + 1)%nat.

(** ** The [csv] module *)

(** One row of [csv.DictReader]: the fields under the names of the header;
    a name beyond the end of a short record is present with the value
    [None].  (Fields beyond the header go under the key [None], which no
    look-up by name reaches.) *)
Definition reader_row (fieldnames row : list string) : gmap string (option string) :=
  let d := foldl (λ d kv, <[kv.1 := Some kv.2]> d) ∅ (zip fieldnames row) in
  foldl (λ d key, <[key := None]> d) d (drop (length row) fieldnames).

(** The rows [csv.DictReader] yields: the first record is the header, empty
    records after it are skipped. *)
Definition DictReader (content : csv_file) : list (gmap string (option string)) :=
  match content with
  | [] => []
  | fieldnames :: records =>
      reader_row fieldnames <$> filter (λ r, r ≠ []) records
  end.

(** The record [csv.DictWriter.writerow] writes for a dictionary all of
    whose keys are field names. *)
Definition writerow (fieldnames : list string) (rowdict : dict) : list string :=
  (λ key, default "" (rowdict !! key)) <$> fieldnames.

(** ** The titles and the CSV row of a record *)

Definition summary_statistics_titles : list string :=
  [ "Company: "; "Date Range: "; "Total Trading Days: "; "Opening Price: ";
    "Closing Price: "; "Average Closing Price: "; "Highest Closing Price: ";
    "Highest Intraday Price: "; "Lowest Closing Price: ";
    "Lowest Intraday Price: "; "Daily Price Volatility: ";
    "Annualized Price Volatility: "; "Total Return (%): ";
    "Average Daily Volume: " ].

(** [[title.strip(": ").lower().replace(" ", "_") for title in titles]] *)
Definition cleaned_titles (titles : list string) : list string :=
  (λ title, replace " " "_" (lower (strip_chars ": " title))) <$> titles.

(** [{title: sum_stats[f"stat{i + 1}"] for i, title in enumerate(cleaned)}] *)
Fixpoint row_of_stats (sum_stats : dict) (i : nat) (cleaned : list string)
    (acc : dict) : exn + dict :=
  match cleaned with
  | [] => inr acc
  | title :: rest =>
      match getitem sum_stats (stat_key i) with
      | inl e => inl e
      | inr v => row_of_stats sum_stats (S i) rest (<[title := v]> acc)
      end
  end.

Definition new_row_of (sum_stats : dict) (cleaned : list string) : exn + dict :=
  row_of_stats sum_stats 0 cleaned ∅.

(** ** The prompts *)

(** [validate_date], lines 223-237. *)
Definition validate_date (d : string) (w : world) : option date * world :=
  match strptime_Y_m_d d with
  | Some parsed => (Some parsed, w)
  | None => (None, print "Invalid date format or invalid calendar date." w)
  end.

(** The loop of [exit_menu], lines 565-571. *)
Fixpoint exit_menu_loop (exit_choice : string) (stdin : list string) (w : world)
    : outcome (() * list string) :=
  if String.eqb exit_choice "y"
  then Raise (SystemExit (nl +:+ ".....Exiting....." +:+ nl)) w
  else if String.eqb exit_choice "n"
  then Ret ((), stdin) w
  else
    let w := print "Invalid input. Please try again: " w in
    match stdin with
    | [] => Raise EOFError w
    | line :: stdin' => exit_menu_loop (lower (strip line)) stdin' w
    end.

(** [exit_menu], lines 550-571. *)
Definition exit_menu (stdin : list string) (w : world) : outcome (() * list string) :=
  let w :=
    print "Are you sure you wish to exit? All analyzed stocks will be lost [y/N]: " w in
  match stdin with
  | [] => Raise EOFError w
  | line :: stdin' => exit_menu_loop (lower (strip line)) stdin' w
  end.

(** The loop that asks for a number from [lo] to [hi]; the script writes it
    out at each menu with the texts of that menu (lines 48-57, 69-80,
    104-116 and 494-505). *)
Fixpoint choice_loop (prompt range_text value_text : string) (lo hi : Z)
    (stdin : list string) (w : world) : outcome (Z * list string) :=
  let w := print prompt w in
  match stdin with
  | [] => Raise EOFError w
  | line :: stdin' =>
      match py_int (strip line) with
      | Some choice =>
          if (lo <=? choice)%Z && (choice <=? hi)%Z
          then Ret (choice, stdin') w
          else choice_loop prompt range_text value_text lo hi stdin' (print range_text w)
      | None =>
          choice_loop prompt range_text value_text lo hi stdin' (print value_text w)
      end
  end.

(** The loop of [main] at lines 48-57. *)
Definition main_menu_choice : list string → world → outcome (Z * list string) :=
  choice_loop "What would you like to do? (1, 2, 3, 4): "
    "Invalid input, please choose between 1 and 4"
    "Invalid input, please try again." 1 4.

(** The loop of [main] at lines 69-80. *)
Definition stock_choice : list string → world → outcome (Z * list string) :=
  choice_loop "What would you like to do? (1, 2, 3, or 4): "
    "Invalid input, please choose between 1 and 4"
    "Invalid input, please try again." 1 4.

(** The loop of [main] at lines 104-116. *)
Definition access_choice : list string → world → outcome (Z * list string) :=
  choice_loop "What would you like to do? (1, 2, 3, 4, or 5): "
    "Invalid input, please choose between 1 and 5"
    "Invalid input. Please try again." 1 5.

(** The loop of [view_stock_graph] at lines 494-505. *)
Definition graph_stat_choice : list string → world → outcome (Z * list string) :=
  choice_loop "Which statistic do you want to graph? (1, 2, 3, 4, or 5): "
    "Invalid Input. Please enter a number between 1 and 5"
    "Invalid Input. Please try again." 1 5.

(** The loop of [save_all_to_csv] at lines 401-403. *)
Fixpoint ask_filename (filename : string) (stdin : list string) (w : world)
    : outcome (string * list string) :=
  if String.eqb filename "" then
    let w := print "Please enter a filename: " w in
    match stdin with
    | [] => Raise EOFError w
    | line :: stdin' => ask_filename (strip line) stdin' w
    end
  else Ret (filename, stdin) w.

(** Lines 404-407 of [save_all_to_csv]. *)
Definition csv_filename (filename : string) : string :=
  let filename :=
    if endswith filename ".csv" then filename else filename +:+ ".csv" in
  if contains_char " " filename then replace " " "_" filename else filename.

(** ** The environment of the script *)

(** One row of the table [stock.history] returns: the date of the index and
    the columns the script reads. *)
Record bar (float : Type) := Bar {
  bar_date : date;
  Open : float;
  High : float;
  Low : float;
  Close : float;
  Volume : Z
}.
Global Arguments Bar {float} _ _ _ _ _ _.
Global Arguments bar_date {float} _.
Global Arguments Open {float} _.
Global Arguments High {float} _.
Global Arguments Low {float} _.
Global Arguments Close {float} _.
Global Arguments Volume {float} _.

(** What the script takes from outside: yfinance, the clock, [str.upper]
    (which leaves the code points below 256 for some letters) and the
    floating-point arithmetic of Python and pandas. *)
Class Env := {
  float : Type;
  (** [stock.info.get("longName")] of [yf.Ticker(t)]; [None] when the
      information is empty or has no name *)
  longName : string → option string;
  (** [yf.Ticker(t).history(start=..., end=...)] *)
  history : string → date → date → list (bar float);
  (** [datetime.date.today()] *)
  today : date;
  upper : string → string;
  (** [format(x, ",.nf")] *)
  format_float : nat → float → string;
  (** [Series.mean], [Series.max], [Series.min], [Series.std] *)
  series_mean : list float → float;
  series_max : list float → float;
  series_min : list float → float;
  series_std : list float → float;
  (** [Series.pct_change] and [Series.dropna] *)
  pct_change : list float → list float;
  dropna : list float → list float;
  float_sub : float → float → float;
  float_mul : float → float → float;
  float_div : float → float → float;
  float_pow : float → float → float;
  (** an integer taken as a float, and the literal [0.5] *)
  float_of_Z : Z → float;
  float_half : float;
  (** [round(x)] of a finite float *)
  py_round : float → Z
}.

(** [format(n, ",")] of an integer. *)
Fixpoint group3 (k : nat) (s : string) : string :=
  match s with
  | String c r =>
      if (k =? 3)%nat then String ","%char (String c (group3 1 r))
      else String c (group3 (S k) r)
  | EmptyString => EmptyString
  end.

Definition format_comma (n : Z) : string :=
  (if (n <? 0)%Z then "-" else "") +:+
  String.rev (group3 0 (String.rev (pretty (Z.abs n)))).

Record ticker_info := TickerInfo { ticker : string; long_name : string }.

Section Program.
Context `{Env}.

(** [validate_ticker], lines 240-262 (the redirection of the error stream
    during the look-up is not observable in the model). *)
Definition validate_ticker (t : string) (w : world) : option ticker_info * world :=
  match longName t with
  | None => (None, print "Entered ticker does not exist." w)
  | Some name => (Some (TickerInfo t name), w)
  end.

(** The fourteen statistics of a non-empty table, lines 281-311. *)
Definition sum_stats_of (tk : ticker_info) (first last : bar float)
    (data : list (bar float)) : dict :=
  let closes := Close <$> data in
  let returns := dropna (pct_change closes) in
  <["stat14" := format_comma (py_round (series_mean (float_of_Z ∘ Volume <$> data)))]> (
  <["stat13" := format_float 4
      (float_mul (float_div (float_sub (Close last) (Open first)) (Open first))
         (float_of_Z 100)) +:+ "%"]> (
  <["stat12" := format_float 6
      (float_mul (series_std returns) (float_pow (float_of_Z 252) float_half))]> (
  <["stat11" := format_float 6 (series_std returns)]> (
  <["stat10" := "$" +:+ format_float 2 (series_min (Low <$> data))]> (
  <["stat9" := "$" +:+ format_float 2 (series_min closes)]> (
  <["stat8" := "$" +:+ format_float 2 (series_max (High <$> data))]> (
  <["stat7" := "$" +:+ format_float 2 (series_max closes)]> (
  <["stat6" := "$" +:+ format_float 2 (series_mean closes)]> (
  <["stat5" := "$" +:+ format_float 2 (Close last)]> (
  <["stat4" := "$" +:+ format_float 2 (Open first)]> (
  <["stat3" := format_comma (Z.of_nat (length data))]> (
  <["stat2" := isoformat (bar_date first) +:+ " to " +:+ isoformat (bar_date last)]> (
  <["stat1" := ticker tk +:+ " (" +:+ long_name tk +:+ ")"]> ∅))))))))))))).

(** [stock_summary_statistics], lines 265-313; [None] as in the source. *)
Definition stock_summary_statistics (tk : ticker_info) (start_date end_date : date)
    : option dict :=
  let data := history (ticker tk) start_date end_date in
  match data, last data with
  | first :: _, Some last => Some (sum_stats_of tk first last data)
  | _, _ => None
  end.

(** The loop of lines 207-208 and 379-380:
    [print(f"{titles[i]}{stats[f'stat{i + 1}']}")] for [i] in [indices]. *)
Fixpoint print_statistics (titles : list string) (stats : dict) (indices : list nat)
    (w : world) : outcome () :=
  match indices with
  | [] => Ret () w
  | i :: rest =>
      match titles !! i with
      | None => Raise IndexError w
      | Some title =>
          let* v, w := lift (getitem stats (stat_key i)) w in
          print_statistics titles stats rest (print (title +:+ v) w)
      end
  end.

(** The search of lines 210-216: is there a record with the same [stat1]
    and the same [stat2]? *)
Fixpoint already_analyzed (all_stocks : list dict) (summary_statistics : dict)
    : exn + bool :=
  match all_stocks with
  | [] => inr false
  | stock :: rest =>
      match getitem stock "stat1", getitem summary_statistics "stat1" with
      | inl e, _ => inl e
      | _, inl e => inl e
      | inr a, inr b =>
          if decide (a = b) then
            match getitem stock "stat2", getitem summary_statistics "stat2" with
            | inl e, _ => inl e
            | _, inl e => inl e
            | inr a2, inr b2 =>
                if decide (a2 = b2) then inr true
                else already_analyzed rest summary_statistics
            end
          else already_analyzed rest summary_statistics
      end
  end.

(** Lines 200-220 of [analyze_stock]: the report of the statistics and the
    entry in [all_stocks].  The value is the record and the list as the call
    leaves it. *)
Definition record_stock (all_stocks : list dict) (titles : list string)
    (tk : ticker_info) (start_date end_date : date) (summary_statistics : dict)
    (w : world) : outcome (dict * list dict) :=
  let w := print ("Company: " +:+ ticker tk +:+ " (" +:+ long_name tk +:+ ")") w in
  let w := print ("Valid Date Range: " +:+ isoformat start_date +:+ " to " +:+
                  isoformat end_date) w in
  let w := print ("----------------------------------" +:+ nl) w in
  let w := print (lines ["--"; "**Note**:";
    "If either the start or end date occurs on a day when the market was closed, the soonest succeeding day was chosen.";
    "--"; ""]) w in
  let* _, w := print_statistics titles summary_statistics
                 (seq 0 (size summary_statistics)) w in
  let* found, w := lift (already_analyzed all_stocks summary_statistics) w in
  if found : bool then Ret (summary_statistics, all_stocks) w
  else Ret (summary_statistics, all_stocks ++ [summary_statistics]) w.

(** [analyze_stock], lines 150-220. *)
Fixpoint analyze_stock (all_stocks : list dict) (titles : list string)
    (stdin : list string) (w : world) : outcome ((dict * list dict) * list string) :=
  let w := print "Please enter a stock ticker: " w in
  match stdin with
  | [] => Raise EOFError w
  | line1 :: stdin1 =>
    match validate_ticker (upper (strip line1)) w with
    | (None, w) => analyze_stock all_stocks titles stdin1 w
    | (Some stock_ticker, w) =>
      let w := print "Please enter a start date(YYYY-MM-DD): " w in
      match stdin1 with
      | [] => Raise EOFError w
      | line2 :: stdin2 =>
        match validate_date (strip line2) w with
        | (None, w) => analyze_stock all_stocks titles stdin2 w
        | (Some start_date, w) =>
          let w := print "Please enter an end date(YYYY-MM-DD): " w in
          match stdin2 with
          | [] => Raise EOFError w
          | line3 :: stdin3 =>
            match validate_date (strip line3) w with
            | (None, w) => analyze_stock all_stocks titles stdin3 w
            | (Some end_date, w) =>
              let w := print (nl +:+ ".....Validating....." +:+ nl) w in
              if date_ge start_date end_date then
                analyze_stock all_stocks titles stdin3
                  (print "Start date must occur before end date" w)
              else if date_gt start_date today || date_gt end_date today then
                analyze_stock all_stocks titles stdin3
                  (print "Date(s) entered cannot be in the future." w)
              else
                let w := print "-----------------------------" w in
                match stock_summary_statistics stock_ticker start_date end_date with
                | None =>
                    analyze_stock all_stocks titles stdin3
                      (print (lines ["There is no data available for this date range.";
                                     "Please try again with another set of dates.";
                                     "-----------------------------"]) w)
                | Some summary_statistics =>
                    let* r, w := record_stock all_stocks titles stock_ticker
                                   start_date end_date summary_statistics w in
                    Ret (r, stdin3) w
                end
            end
          end
        end
      end
    end
  end.

End Program.

(** ** Saving to CSV *)

(** The search of lines 345-348: [row["date_range"] == new_row["date_range"]]
    for the rows of the file in turn. *)
Fixpoint find_duplicate (rows : list (gmap string (option string))) (new_row : dict)
    : exn + bool :=
  match rows with
  | [] => inr false
  | row :: rest =>
      match getitem row "date_range", getitem new_row "date_range" with
      | inl e, _ => inl e
      | _, inl e => inl e
      | inr old, inr new =>
          if decide (old = Some new) then inr true else find_duplicate rest new_row
      end
  end.

(** The name of the file of one record, lines 331-333. *)
Definition stock_filename (stat1 stat2 : string) : string :=
  default "" (head (split " " stat1)) +:+ "_" +:+ replace " " "_" stat2 +:+ ".csv".

(** [save_one_stock_to_csv], lines 316-365. *)
Definition save_one_stock_to_csv (sum_stats : dict) (titles : list string) (w : world)
    : outcome () :=
  let cleaned := cleaned_titles titles in
  let* stat1, w := lift (getitem sum_stats "stat1") w in
  let* stat2, w := lift (getitem sum_stats "stat2") w in
  let filename := stock_filename stat1 stat2 in
  let* new_row, w := lift (new_row_of sum_stats cleaned) w in
  let file_exists := bool_decide (is_Some (files w !! filename)) in
  let* duplicate, w :=
    lift (match files w !! filename with
          | Some content => find_duplicate (DictReader content) new_row
          | None => inr false
          end) w in
  if duplicate : bool then
    Ret () (print (nl +:+ "--" +:+ nl +:+ "Stock data for " +:+ stat1 +:+ " from " +:+
                   stat2 +:+ " is already saved in " +:+ filename +:+ "." +:+ nl +:+ "--") w)
  else
    let old := default [] (files w !! filename) in
    let header := if file_exists then [] else [cleaned] in
    let w := write_file filename (old ++ header ++ [writerow cleaned new_row]) w in
    let w := print (nl +:+ ".....Saving....." +:+ nl) w in
    Ret () (print ("Data saved to " +:+ filename) w).

(** [list_stocks], lines 368-381. *)
Fixpoint list_stocks_loop (all_stocks : list dict) (titles : list string) (w : world)
    : outcome () :=
  match all_stocks with
  | [] => Ret () w
  | stock :: rest =>
      let* _, w := print_statistics titles stock (seq 0 (size stock)) w in
      list_stocks_loop rest titles (print ("--" +:+ nl) w)
  end.

Definition list_stocks (all_stocks : list dict) (titles : list string) (w : world)
    : outcome () :=
  list_stocks_loop all_stocks titles
    (print (nl +:+ "All Analyzed Stocks:" +:+ nl +:+ "-----****-----") w).

(** The rows of lines 409-415. *)
Fixpoint rows_of (all_stocks : list dict) (cleaned : list string) : exn + list dict :=
  match all_stocks with
  | [] => inr []
  | stock :: rest =>
      match new_row_of stock cleaned with
      | inl e => inl e
      | inr row =>
          match rows_of rest cleaned with
          | inl e => inl e
          | inr rows => inr (row :: rows)
          end
      end
  end.

(** [save_all_to_csv], lines 384-433. *)
Definition save_all_to_csv (all_stocks : list dict) (titles : list string)
    (stdin : list string) (w : world) : outcome (() * list string) :=
  let cleaned := cleaned_titles titles in
  let* (filename, stdin), w := ask_filename "" stdin w in
  let filename := csv_filename filename in
  let* rows, w := lift (rows_of all_stocks cleaned) w in
  let file_exists := bool_decide (is_Some (files w !! filename)) in
  let old := default [] (files w !! filename) in
  let header := if file_exists then [] else [cleaned] in
  let w := write_file filename (old ++ header ++ (writerow cleaned <$> rows)) w in
  let w := print (nl +:+ ".....Saving....." +:+ nl) w in
  Ret ((), stdin) (print ("Data saved to " +:+ filename) w).

(** ** Graphs *)

(** The list of lines 448-449. *)
Fixpoint print_choices (stocks : list dict) (i : nat) (w : world) : outcome () :=
  match stocks with
  | [] => Ret () w
  | stock :: rest =>
      let* stat1, w := lift (getitem stock "stat1") w in
      let* stat2, w := lift (getitem stock "stat2") w in
      print_choices rest (S i)
        (print (pretty (i + 1)%nat +:+ ". " +:+ stat1 +:+ " ~ " +:+ stat2) w)
  end.

(** The loop of lines 456-479.  Its value is [inl b] when the function
    returns [b] from inside the loop and [inr n] when the loop is left with
    the stock number [n].  Each round reads at least one line, so the number
    of lines of [stdin] is enough [fuel]. *)
Fixpoint stock_number_loop (fuel : nat) (all_stocks : list dict)
    (stdin : list string) (w : world) : outcome ((bool + Z) * list string) :=
  let count := Z.of_nat (length all_stocks) in
  let w := print "Which stock would you like to view? (Enter the Number): " w in
  match fuel, stdin with
  | S fuel, line :: stdin =>
      match py_int (strip line) with
      | None =>
          stock_number_loop fuel all_stocks stdin (print "Invalid input. Please try again." w)
      | Some stock_number =>
          if negb ((1 <=? stock_number)%Z && (stock_number <=? count + 3)%Z) then
            stock_number_loop fuel all_stocks stdin
              (print ("Invalid input. You must input a number between 1 and " +:+
                      pretty (count + 3)%Z) w)
          else if (stock_number =? count + 1)%Z then Ret (inl false, stdin) w
          else if (stock_number =? count + 2)%Z then Ret (inl true, stdin) w
          else if (stock_number =? count + 3)%Z then
            let* (_, stdin), w := exit_menu stdin w in
            stock_number_loop fuel all_stocks stdin w
          else Ret (inr stock_number, stdin) w
      end
  | _, _ => Raise EOFError w
  end.

Definition graph_options (graph_stat : Z) : string :=
  if (graph_stat =? 1)%Z then "Opening Price"
  else if (graph_stat =? 2)%Z then "Closing Price"
  else if (graph_stat =? 3)%Z then "High Price"
  else if (graph_stat =? 4)%Z then "Low Price"
  else "Volume".

(** [view_stock_graph], lines 436-547.  The table fetched for the figure only
    feeds the plotting library; the figure is recorded by its title. *)
Definition view_stock_graph (all_stocks : list dict) (stdin : list string) (w : world)
    : outcome (bool * list string) :=
  let count := Z.of_nat (length all_stocks) in
  let w := print ("---------------" +:+ nl +:+
                  "Below are all of the stocks you have analyzed:") w in
  let* _, w := print_choices all_stocks 0 w in
  let w := print (lines [pretty (count + 1)%Z +:+ ". Return to Stock Access Menu";
                         pretty (count + 2)%Z +:+ ". Return to Main Menu";
                         pretty (count + 3)%Z +:+ ". Exit"]) w in
  let w := print "" w in
  let* (r, stdin), w := stock_number_loop (length stdin) all_stocks stdin w in
  match r with
  | inl b => Ret (b, stdin) w
  | inr stock_number =>
      match all_stocks !! Z.to_nat (stock_number - 1) with
      | None => Raise IndexError w
      | Some stock =>
          let* _, w := lift (getitem stock "stat1") w in
          let* stat2, w := lift (getitem stock "stat2") w in
          match split " to " stat2 with
          | [start_date; end_date] =>
              let w := print (nl +:+ ".....Retrieving Stock....." +:+ nl) w in
              let* stat1, w := lift (getitem stock "stat1") w in
              let* stat2, w := lift (getitem stock "stat2") w in
              let w := print ("Available Statistics for " +:+ stat1 +:+ " from " +:+ stat2) w in
              let w := print (lines ["1. Daily Opening Price"; "2. Daily Closing Price";
                                     "3. Highest Intraday Price"; "4. Lowest Intraday Price";
                                     "5. Daily Volume"]) w in
              let* (graph_stat, stdin), w := graph_stat_choice stdin w in
              let w := print (nl +:+ ".....Graphing....." +:+ nl) w in
              let* stat1, w := lift (getitem stock "stat1") w in
              let w := show_figure (stat1 +:+ " " +:+ graph_options graph_stat +:+
                                    " from " +:+ start_date +:+ " to " +:+ end_date) w in
              Ret (false, stdin) w
          | _ => Raise ValueError w
          end
      end
  end.

(** ** The menus of [main] *)

Inductive menu :=
| MainMenu
| StockMenu (stock_data : dict)
| AccessMenu.

Record config := Config {
  at_menu : menu;
  all_stocks : list dict;
  stdin : list string
}.

Definition user_guide : string :=
  lines [ "";
    "    ----------------------------------";
    "    User Guide:";
    "    1. Select 'Analyze a Stock' to input a ticker symbol and date range.";
    "    2. Dates must be entered in YYYY-MM-DD format and be within valid trading days.";
    "    3. After analysis, choose to save data or analyze another stock.";
    "    4. Saved CSV files can be found in the same folder.";
    "    5. Select 'Access All Analyzed Stocks' to do the following:";
    "            I. List All Analyzed Stocks";
    "            II. Save All Analyzed Stocks to a CSV";
    "            III. View Graphs of Individual Analyzed Stocks";
    "                ";
    "    *To exit at any point, follow the prompts in any menu*";
    "    ----------------------------------";
    "            " ].

Section Main.
Context `{Env}.

(** One round of the loop of [main] the script is in: the outer loop (lines
    40-147), the loop of the stock analysis menu (lines 63-90) or the loop of
    the stock access menu (lines 99-129). *)
Definition main_step (c : config) (w : world) : outcome config :=
  let titles := summary_statistics_titles in
  match at_menu c with
  | MainMenu =>
      let w := print "-------------------------" w in
      let w := print "Welcome to Stock Data Explorer!" w in
      let w := print (lines [""; "Menu:"; "1. Analyze a Stock";
                             "2. Access All Analyzed Stocks"; "3. User Guide";
                             "4. Exit"; "---------------"]) w in
      let* (main_menu_choice, stdin), w := main_menu_choice (stdin c) w in
      let w := print "--------------------------" w in
      if (main_menu_choice =? 1)%Z then
        let* ((stock_data, all_stocks), stdin), w :=
          analyze_stock (all_stocks c) titles stdin w in
        Ret (Config (StockMenu stock_data) all_stocks stdin) w
      else if (main_menu_choice =? 2)%Z then
        match all_stocks c with
        | [] =>
            Ret (Config MainMenu (all_stocks c) stdin)
              (print (nl +:+
                 "**You must first analyze one or more stocks before you can access them.**"
                 +:+ nl) w)
        | _ :: _ => Ret (Config AccessMenu (all_stocks c) stdin) w
        end
      else if (main_menu_choice =? 3)%Z then
        Ret (Config MainMenu (all_stocks c) stdin) (print user_guide w)
      else
        let* (_, stdin), w := exit_menu stdin w in
        Ret (Config MainMenu (all_stocks c) stdin) w
  | StockMenu stock_data =>
      let w := print (nl +:+ "----------------------------------" +:+ nl) w in
      let w := print (lines ["Stock Analysis Menu:"; "1. Save Data to CSV";
                             "2. Analyze Another Stock"; "3. Return to Main Menu";
                             "4. Exit"]) w in
      let* (stock_choice, stdin), w := stock_choice (stdin c) w in
      if (stock_choice =? 1)%Z then
        let* _, w := save_one_stock_to_csv stock_data titles w in
        Ret (Config (StockMenu stock_data) (all_stocks c) stdin) w
      else if (stock_choice =? 2)%Z then
        let w := print "" w in
        let* ((stock_data, all_stocks), stdin), w :=
          analyze_stock (all_stocks c) titles stdin w in
        Ret (Config (StockMenu stock_data) all_stocks stdin) w
      else if (stock_choice =? 3)%Z then
        Ret (Config MainMenu (all_stocks c) stdin) w
      else
        let* (_, stdin), w := exit_menu stdin w in
        Ret (Config (StockMenu stock_data) (all_stocks c) stdin) w
  | AccessMenu =>
      let w := print (lines [""; "Stock Access Menu:"; "1. List All Analyzed Stocks";
                             "2. Save All Analyzed Stocks to CSV";
                             "3. View Graphs of Individual Analyzed Stocks";
                             "4. Return to Main Menu"; "5. Exit"; "---------------"]) w in
      let* (access_choice, stdin), w := access_choice (stdin c) w in
      if (access_choice =? 1)%Z then
        let* _, w := list_stocks (all_stocks c) titles w in
        Ret (Config AccessMenu (all_stocks c) stdin) w
      else if (access_choice =? 2)%Z then
        let* (_, stdin), w := save_all_to_csv (all_stocks c) titles stdin w in
        Ret (Config AccessMenu (all_stocks c) stdin) w
      else if (access_choice =? 3)%Z then
        let* (to_main, stdin), w := view_stock_graph (all_stocks c) stdin w in
        if to_main : bool then Ret (Config MainMenu (all_stocks c) stdin) w
        else Ret (Config AccessMenu (all_stocks c) stdin) w
      else if (access_choice =? 4)%Z then
        Ret (Config MainMenu (all_stocks c) stdin) w
      else
        let* (_, stdin), w := exit_menu stdin w in
        Ret (Config AccessMenu (all_stocks c) stdin) w
  end.

(** [main], lines 17-147: the rounds of its loops from the main menu with
    no record, until an exception ends the script.  The value after [rounds]
    rounds is the configuration then. *)
Fixpoint main_rounds (rounds : nat) (c : config) (w : world) : outcome config :=
  match rounds with
  | O => Ret c w
  | S rounds =>
      let* c, w := main_step c w in
      main_rounds rounds c w
  end.

Definition main (rounds : nat) (stdin : list string) (w : world) : outcome config :=
  main_rounds rounds (Config MainMenu [] stdin) w.

(** The configurations the script passes through. *)
Definition reachable (c : config) : Prop :=
  ∃ rounds stdin w w', main rounds stdin w = Ret c w'.

End Main.

(** ** A small environment to run the script on

    Prices are whole numbers, [None] is the missing value of pandas, one
    ticker is known and its table has three trading days. *)
Module Sample.

Abbreviation num := (option Z).

Definition lift2 (f : Z → Z → Z) (a b : num) : num :=
  x ← a; y ← b; Some (f x y).

Definition total (l : list num) : Z := foldr (λ a s, (default 0 a + s)%Z) 0%Z l.

Definition mean (l : list num) : num :=
  match l with
  | [] => None
  | _ => Some (total l / Z.of_nat (length l))%Z
  end.

Definition extremum (f : Z → Z → Z) (l : list num) : num :=
  match l with
  | [] => None
  | a :: r => foldr (lift2 f) a r
  end.

(** Sample standard deviation, rounded down. *)
Definition std (l : list num) : num :=
  match l with
  | [] | [_] => None
  | _ =>
      m ← mean l;
      Some (Z.sqrt (total ((λ a : num, (λ x, (x - m) * (x - m))%Z <$> a) <$> l)
                    / (Z.of_nat (length l) - 1)))%Z
  end.

(** Change from one value to the next, in hundredths of a percent. *)
Fixpoint changes (prev : num) (l : list num) : list num :=
  match l with
  | [] => []
  | a :: r => lift2 (λ x p, (10000 * (x - p) / p)%Z) a prev :: changes a r
  end.

Definition show (digits : nat) (x : num) : string :=
  match x with
  | None => "nan"
  | Some v => format_comma v +:+ "." +:+ String.string_of_list_ascii (replicate digits "0"%char)
  end.

Definition upper_char (c : ascii) : ascii :=
  if (97 <=? ord c)%Z && (ord c <=? 122)%Z
  then ascii_of_N (N_of_ascii c - 32) else c.

Fixpoint ascii_upper (s : string) : string :=
  match s with
  | String c r => String (upper_char c) (ascii_upper r)
  | EmptyString => EmptyString
  end.

Definition table : list (bar num) :=
  [ Bar (Date 2024 1 2) (Some 187) (Some 188) (Some 183) (Some 185) 82488700;
    Bar (Date 2024 1 3) (Some 184) (Some 185) (Some 183) (Some 184) 58414500;
    Bar (Date 2024 1 4) (Some 182) (Some 183) (Some 180) (Some 181) 71983600 ]%Z.

#[export] Instance env : Env := {|
  float := num;
  longName t := if decide (t = "AAPL") then Some "Apple Inc." else None;
  history t start_date end_date :=
    if decide (t = "AAPL")
    then filter (λ b, date_ge (bar_date b) start_date ∧ date_lt (bar_date b) end_date) table
    else [];
  today := Date 2024 6 30;
  upper := ascii_upper;
  format_float := show;
  series_mean := mean;
  series_max := extremum Z.max;
  series_min := extremum Z.min;
  series_std := std;
  pct_change := changes None;
  dropna := filter (λ a, is_Some a);
  float_sub := lift2 Z.sub;
  float_mul := lift2 Z.mul;
  float_div := lift2 Z.div;
  float_pow a b := lift2 (λ x _, Z.sqrt x) a b;
  float_of_Z := Some;
  float_half := Some 0%Z;
  py_round := default 0%Z
|}.

(** The record of the sample table. *)
Definition aapl : dict :=
  default ∅ (stock_summary_statistics (TickerInfo "AAPL" "Apple Inc.")
               (Date 2024 1 1) (Date 2024 1 5)).

Definition empty_world : world := World [] ∅ [].

End Sample.

(** ** Vocabulary of the statements *)

(** The console after [n] more writings of [text]. *)
Definition printed (n : nat) (text : string) (w : world) : world :=
  Nat.iter n (print text) w.

Definition exit_prompt : string :=
  "Are you sure you wish to exit? All analyzed stocks will be lost [y/N]: ".
Definition exit_retry : string := "Invalid input. Please try again: ".
Definition exiting : string := nl +:+ ".....Exiting....." +:+ nl.

(** The console of [exit_menu] after its question and [n] repetitions. *)
Definition asked (n : nat) (w : world) : world :=
  printed n exit_retry (print exit_prompt w).

(** What [exit_menu] makes of a line. *)
Definition exit_answer (line : string) : string := lower (strip line).

Definition undecided (line : string) : Prop :=
  exit_answer line ≠ "y" ∧ exit_answer line ≠ "n".

(** A line is a choice from [lo] to [hi]. *)
Definition chooses (lo hi : Z) (line : string) (choice : Z) : Prop :=
  py_int (strip line) = Some choice ∧ (lo ≤ choice ≤ hi)%Z.

Definition rejected (lo hi : Z) (line : string) : Prop :=
  ∀ choice, ¬ chooses lo hi line choice.

(** The console after the prompt and the answer to a rejected line. *)
Definition reject (prompt range_text value_text : string) (w : world) (line : string)
    : world :=
  print (match py_int (strip line) with
         | Some _ => range_text
         | None => value_text
         end) (print prompt w).

Definition main_menu_prompt : string := "What would you like to do? (1, 2, 3, 4): ".

Definition blank (line : string) : Prop := strip line = "".

Definition filename_prompt : string := "Please enter a filename: ".

(** The world after [save_all_to_csv] has written [rows] to the file [name]. *)
Definition saved_all (titles : list string) (name : string) (rows : list dict)
    (w : world) : world :=
  let cleaned := cleaned_titles titles in
  let content :=
    match files w !! name with
    | Some old => old ++ (writerow cleaned <$> rows)
    | None => cleaned :: (writerow cleaned <$> rows)
    end in
  print ("Data saved to " +:+ name)
    (print (nl +:+ ".....Saving....." +:+ nl) (write_file name content w)).

(** The key of a record in [all_stocks]: its ticker text and its date range. *)
Definition record_key (d : dict) : option string * option string :=
  (d !! "stat1", d !! "stat2").

(** The keys [stat1] to [stat14]. *)
Definition stat_keys : gset string := list_to_set (stat_key <$> seq 0 14).







(** The fourteen values of a record, in the order of the titles. *)
Definition stat_values (sum_stats : dict) : list string :=
  (λ i, default "" (sum_stats !! stat_key i)) <$> seq 0 14.

(** The file has a row with this date range, as [csv.DictReader] reads it. *)
Definition has_date_range (content : csv_file) (stat2 : string) : Prop :=
  ∃ row, row ∈ DictReader content ∧ row !! "date_range" = Some (Some stat2).

(** Every row of the file has a field [date_range]: the header names it, or
    there is no row. *)
Definition date_range_column (content : csv_file) : Prop :=
  ∀ row, row ∈ DictReader content → is_Some (row !! "date_range").

Definition already_saved (stat1 stat2 filename : string) : string :=
  nl +:+ "--" +:+ nl +:+ "Stock data for " +:+ stat1 +:+ " from " +:+ stat2 +:+
  " is already saved in " +:+ filename +:+ "." +:+ nl +:+ "--".

(** The world after [save_one_stock_to_csv] has left [content] in the file. *)
Definition saved_one (filename : string) (content : csv_file) (w : world) : world :=
  print ("Data saved to " +:+ filename)
    (print (nl +:+ ".....Saving....." +:+ nl) (write_file filename content w)).


(** The records of the list have the two fields of the key. *)
Definition keyed (stocks : list dict) : Prop :=
  Forall (λ d : dict, is_Some (d !! "stat1") ∧ is_Some (d !! "stat2")) stocks.

(** Sample inputs of the statements. *)
Module Inputs.
Import Sample.

Definition aapl_file : string := "AAPL_2024-01-02_to_2024-01-04.csv".

Definition aapl_row : list string := stat_values Sample.aapl.


(** [stocks.csv] after the record was saved to it once. *)
Definition saved_once : world :=
  World [] {[ "stocks.csv" := [cleaned_titles summary_statistics_titles; aapl_row] ]} [].

Definition aapl_rows : list dict :=
  match rows_of [Sample.aapl] (cleaned_titles summary_statistics_titles) with
  | inr rows => rows
  | inl _ => []
  end.

Definition session_input : list string :=
  ["1"; "aapl"; "2024-01-01"; "2024-1-5"; "2"; "AAPL"; "2024-01-02"; "2024-01-05"; "3"].

Definition session_end : config :=
  match main 3 session_input Sample.empty_world with
  | Ret c _ => c
  | Raise _ _ => Config MainMenu [] []
  end.

Definition session_console : world :=
  match main 3 session_input Sample.empty_world with
  | Ret _ w => w
  | Raise _ w => w
  end.

End Inputs.

(** ** Vocabulary of the further statements *)

(** What holds of a call when it ends: [Q] of the value and the world when
    it returns, [E] of the exception and the world when it raises. *)
Definition post {A} (Q : A → world → Prop) (E : exn → world → Prop) (o : outcome A)
    : Prop :=
  match o with
  | Ret a w => Q a w
  | Raise e w => E e w
  end.

(** The console after the texts of [texts], one [print] each. *)
Definition print_all (texts : list string) (w : world) : world :=
  foldl (λ w text, print text w) w texts.

(** The lines [list_stocks] and [analyze_stock] print for a record: each
    value after its title. *)
Definition stat_lines (titles : list string) (stats : dict) : list string :=
  zip_with String.append titles (stat_values stats).

(** Every file of [w] is still there in [w'], with its records and maybe
    more records after them. *)
Definition files_extended (w w' : world) : Prop :=
  ∀ name old, files w !! name = Some old →
    ∃ added, files w' !! name = Some (old ++ added).

(** Every file starts with a header that names the field [date_range]. *)
Definition headed (w : world) : Prop :=
  ∀ name content, files w !! name = Some content →
    ∃ header records, content = header :: records ∧ "date_range" ∈ header.


(** The file [save_one_stock_to_csv] writes a record to. *)
Definition record_file (sum_stats : dict) : string :=
  stock_filename (default "" (sum_stats !! "stat1")) (default "" (sum_stats !! "stat2")).




Section SessionVocabulary.
Context `{Env}.

(** A record that [stock_summary_statistics] has computed. *)
Definition analyzed (r : dict) : Prop :=
  ∃ tk start_date end_date, stock_summary_statistics tk start_date end_date = Some r.

(** What the menus of [main] keep: the records of the list were computed by
    [stock_summary_statistics]; in the stock analysis menu the current record
    was too, and a record of the list has its key; the stock access menu is
    entered only with a record in the list. *)
Definition session_inv (c : config) : Prop :=
  Forall analyzed (all_stocks c) ∧
  match at_menu c with
  | MainMenu => True
  | StockMenu stock_data =>
      analyzed stock_data ∧
      ∃ stock, stock ∈ all_stocks c ∧ record_key stock = record_key stock_data
  | AccessMenu => all_stocks c ≠ []
  end.

(** What one round of a menu keeps: the invariant, at least one line read,
    files that only grow and keep their headers, and a list of records that
    only grows at its end. *)
Definition round_post (c : config) (w : world) (c' : config) (w' : world) : Prop :=
  session_inv c' ∧ (length (stdin c') < length (stdin c))%nat ∧
  files_extended w w' ∧ (headed w → headed w') ∧
  all_stocks c `prefix_of` all_stocks c'.

End SessionVocabulary.

(** What a round of a menu can end the script with. *)
Definition round_exn (w : world) (e : exn) (w' : world) : Prop :=
  files w' = files w ∧
  (e = EOFError ∨ e = SystemExit exiting ∨ (e = KeyError "date_range" ∧ ¬ headed w)).


(** Sample runs of the further statements. *)
Module Runs.
Import Sample.

(** The session of [Inputs.session_input] after its second round: in the
    stock analysis menu, with the record analyzed twice. *)
Definition in_stock_menu : config :=
  match main 2 Inputs.session_input Sample.empty_world with
  | Ret c _ => c
  | Raise _ _ => Config MainMenu [] []
  end.

Definition in_stock_menu_console : world :=
  match main 2 Inputs.session_input Sample.empty_world with
  | Ret _ w => w
  | Raise _ w => w
  end.



(** One analysis, after a ticker the data source does not know. *)
Definition analysis_input : list string :=
  ["msft"; " aapl "; "2024-01-01"; "2024-1-5"; "3"].

Definition analysis_console : world :=
  match analyze_stock [] summary_statistics_titles analysis_input Sample.empty_world with
  | Ret _ w => w
  | Raise _ w => w
  end.


(** A directory with an empty file of the name of the record's file. *)
Definition empty_file : world := World [] {[ Inputs.aapl_file := [] ]} [].

(** A graph of the closing price of the first record. *)
Definition graph_input : list string := ["0"; "1"; "six"; "2"; "4"].

Definition graph_console : world :=
  match view_stock_graph [Sample.aapl] graph_input Sample.empty_world with
  | Ret _ w => w
  | Raise _ w => w
  end.

End Runs.
(** ** Properties *)

(** *** Strings *)

Lemma string_app_cons (c : ascii) (a b : string) :
  String c a +:+ b = String c (a +:+ b).
Proof. reflexivity. Qed.

Lemma string_app_nil_l (b : string) : "" +:+ b = b.
Proof. reflexivity. Qed.

Lemma string_app_nil_r (s : string) : s +:+ "" = s.
Proof.
  induction s as [|c s IH]; [done |]. by rewrite string_app_cons, IH.
Qed.

Lemma string_app_assoc (a b c : string) : (a +:+ b) +:+ c = a +:+ b +:+ c.
Proof.
  induction a as [|x a IH]; [done |]. by rewrite !string_app_cons, IH.
Qed.

Lemma endswith_nil (suffix : string) : endswith "" suffix = String.eqb "" suffix.
Proof. by destruct suffix. Qed.

Lemma endswith_cons (c : ascii) (s suffix : string) :
  endswith (String c s) suffix =
  if String.eqb (String c s) suffix then true else endswith s suffix.
Proof. reflexivity. Qed.

Lemma endswith_spec (s suffix : string) :
  endswith s suffix = true ↔ ∃ p, s = p +:+ suffix.
Proof.
  induction s as [|c s IH].
  - rewrite endswith_nil. rewrite String.eqb_eq. split.
    + intros <-. by exists "".
    + intros [p Hp]. destruct p; [done | by rewrite string_app_cons in Hp].
  - rewrite endswith_cons. destruct (String.eqb (String c s) suffix) eqn:E.
    + apply String.eqb_eq in E. split; [by exists "" | done].
    + apply String.eqb_neq in E. rewrite IH. split.
      * intros [p ->]. by exists (String c p).
      * intros [p Hp]. destruct p as [|c' p]; [done |].
        rewrite string_app_cons in Hp. injection Hp as -> ->. by exists p.
Qed.

Lemma replace_app (old new : ascii) (a b : string) :
  replace old new (a +:+ b) = replace old new a +:+ replace old new b.
Proof.
  induction a as [|c a IH]; [done |].
  rewrite string_app_cons. simpl. by rewrite string_app_cons, IH.
Qed.

Lemma replace_no_old (old new : ascii) (s : string) :
  new ≠ old → contains_char old (replace old new s) = false.
Proof.
  intros Hne. induction s as [|c s IH]; simpl; [done |]. rewrite IH.
  destruct (Ascii.eqb c old) eqn:E.
  - rewrite orb_false_r. apply Ascii.eqb_neq. congruence.
  - rewrite orb_false_r. rewrite Ascii.eqb_sym. exact E.
Qed.

Lemma replace_id (old new : ascii) (s : string) :
  contains_char old s = false → replace old new s = s.
Proof.
  induction s as [|c s IH]; simpl; [done |].
  intros [Hc Hs]%orb_false_iff. rewrite (IH Hs).
  rewrite Ascii.eqb_sym, Hc. done.
Qed.





(** *** The console *)

Lemma printed_S (n : nat) (text : string) (w : world) :
  printed (S n) text w = print text (printed n text w).
Proof. reflexivity. Qed.

Lemma printed_print (n : nat) (text : string) (w : world) :
  printed n text (print text w) = printed (S n) text w.
Proof. unfold printed. by rewrite Nat.iter_succ_r. Qed.

Lemma files_print (text : string) (w : world) : files (print text w) = files w.
Proof. reflexivity. Qed.

Lemma files_printed (n : nat) (text : string) (w : world) :
  files (printed n text w) = files w.
Proof. induction n as [|n IH]; [done |]. by rewrite printed_S, files_print. Qed.

Lemma stdout_printed (n : nat) (text : string) (w : world) :
  stdout (printed n text w) = stdout w ++ replicate n text.
Proof.
  induction n as [|n IH]; simpl.
  - by rewrite app_nil_r.
  - rewrite IH, <- app_assoc. f_equal.
    change [text] with (replicate 1 text). rewrite <- replicate_add.
    by replace (n + 1)%nat with (S n) by lia.
Qed.

(** *** [exit_menu] *)

Lemma undecided_dec (line : string) : Decision (undecided line).
Proof. unfold undecided. apply _. Defined.

Lemma exit_menu_loop_y (stdin : list string) (w : world) :
  exit_menu_loop "y" stdin w = Raise (SystemExit exiting) w.
Proof. by destruct stdin. Qed.

Lemma exit_menu_loop_n (stdin : list string) (w : world) :
  exit_menu_loop "n" stdin w = Ret ((), stdin) w.
Proof. by destruct stdin. Qed.

Lemma exit_menu_loop_other (c : string) (stdin : list string) (w : world) :
  c ≠ "y" → c ≠ "n" →
  exit_menu_loop c stdin w =
  match stdin with
  | [] => Raise EOFError (print exit_retry w)
  | line :: stdin' => exit_menu_loop (exit_answer line) stdin' (print exit_retry w)
  end.
Proof.
  intros Hy%String.eqb_neq Hn%String.eqb_neq.
  destruct stdin; simpl; by rewrite Hy, Hn.
Qed.

Lemma exit_menu_loop_skip (pre : list string) (c : string) (rest : list string)
    (w : world) :
  c ≠ "y" → c ≠ "n" → Forall undecided pre →
  exit_menu_loop c (pre ++ rest) w =
  match rest with
  | [] => Raise EOFError (printed (S (length pre)) exit_retry w)
  | line :: rest' =>
      exit_menu_loop (exit_answer line) rest' (printed (S (length pre)) exit_retry w)
  end.
Proof.
  revert c w. induction pre as [|p pre IH]; intros c w Hy Hn Hpre.
  - by rewrite exit_menu_loop_other.
  - apply Forall_cons in Hpre as [[Hpy Hpn] Hpre].
    rewrite <- app_comm_cons, exit_menu_loop_other by done.
    rewrite IH by done. simpl length.
    destruct rest; by rewrite printed_print.
Qed.

(** Every run of [exit_menu]: the lines before the first decided one are
    each answered by the request to try again. *)
Lemma exit_menu_skip (pre rest : list string) (w : world) :
  Forall undecided pre →
  exit_menu (pre ++ rest) w =
  match rest with
  | [] => Raise EOFError (asked (length pre) w)
  | line :: rest' => exit_menu_loop (exit_answer line) rest' (asked (length pre) w)
  end.
Proof.
  intros Hpre. destruct pre as [|p pre].
  - by destruct rest.
  - apply Forall_cons in Hpre as [[Hpy Hpn] Hpre].
    unfold exit_menu. rewrite <- app_comm_cons.
    fold (exit_answer p). by rewrite exit_menu_loop_skip.
Qed.

(** The lines split at the first decided one, if there is one. *)
Lemma first_decided (stdin : list string) :
  Forall undecided stdin ∨
  ∃ pre line rest, stdin = pre ++ line :: rest ∧ Forall undecided pre ∧ ¬ undecided line.
Proof.
  induction stdin as [|l stdin IH]; [by left |].
  destruct (undecided_dec l) as [Hl | Hl].
  - destruct IH as [IH | (pre & line & rest & -> & Hpre & Hline)].
    + left. by constructor.
    + right. exists (l :: pre), line, rest. split; [done |]. split; [by constructor | done].
  - right. by exists [], l, stdin.
Qed.

Lemma decided_cases (line : string) :
  ¬ undecided line → exit_answer line = "y" ∨ exit_answer line = "n".
Proof.
  unfold undecided. intros Hn.
  destruct (decide (exit_answer line = "y")); [by left |].
  destruct (decide (exit_answer line = "n")); [by right |]. by destruct Hn.
Qed.

Lemma exit_menu_eof (stdin : list string) (w : world) :
  Forall undecided stdin →
  exit_menu stdin w = Raise EOFError (asked (length stdin) w).
Proof.
  intros Hall. rewrite <- (app_nil_r stdin) at 1. by rewrite exit_menu_skip.
Qed.

Lemma exit_menu_yes (pre : list string) (line : string) (rest : list string)
    (w : world) :
  Forall undecided pre → exit_answer line = "y" →
  exit_menu (pre ++ line :: rest) w = Raise (SystemExit exiting) (asked (length pre) w).
Proof. intros Hpre Hy. by rewrite exit_menu_skip, Hy, exit_menu_loop_y. Qed.

Lemma exit_menu_no (pre : list string) (line : string) (rest : list string)
    (w : world) :
  Forall undecided pre → exit_answer line = "n" →
  exit_menu (pre ++ line :: rest) w = Ret ((), rest) (asked (length pre) w).
Proof. intros Hpre Hn. by rewrite exit_menu_skip, Hn, exit_menu_loop_n. Qed.

(** C10: [exit_menu] ends the script (raises [SystemExit]) exactly when the
    first line that is an answer reads, stripped and in lower case, as "y";
    it returns to its caller exactly when that line reads as "n" (the lines
    after it are left unread); every line before it is answered by one more
    request to try again, and when the input ends before any answer the
    script stops on the end of the input, not through [sys.exit]. *)
Theorem exit_menu_decides (stdin : list string) (w : world) :
  (∀ message w',
     exit_menu stdin w = Raise (SystemExit message) w' ↔
     ∃ pre line rest,
       stdin = pre ++ line :: rest ∧ Forall undecided pre ∧
       exit_answer line = "y" ∧ message = exiting ∧ w' = asked (length pre) w) ∧
  (∀ rest w',
     exit_menu stdin w = Ret ((), rest) w' ↔
     ∃ pre line,
       stdin = pre ++ line :: rest ∧ Forall undecided pre ∧
       exit_answer line = "n" ∧ w' = asked (length pre) w) ∧
  (∀ w',
     exit_menu stdin w = Raise EOFError w' ↔
     Forall undecided stdin ∧ w' = asked (length stdin) w).
Proof.
  split; [| split].
  - intros message w'. split.
    + destruct (first_decided stdin) as [Hall | (pre & line & rest & -> & Hpre & Hline)].
      { by rewrite exit_menu_eof. }
      destruct (decided_cases line Hline) as [Hy | Hn].
      * rewrite exit_menu_yes by done. intros [= <- <-]. by exists pre, line, rest.
      * by rewrite exit_menu_no.
    + intros (pre & line & rest & -> & Hpre & Hy & -> & ->). by apply exit_menu_yes.
  - intros rest' w'. split.
    + destruct (first_decided stdin) as [Hall | (pre & line & rest & -> & Hpre & Hline)].
      { by rewrite exit_menu_eof. }
      destruct (decided_cases line Hline) as [Hy | Hn].
      * by rewrite exit_menu_yes.
      * rewrite exit_menu_no by done. intros [= <- <-]. by exists pre, line.
    + intros (pre & line & -> & Hpre & Hn & ->). by apply exit_menu_no.
  - intros w'. split.
    + destruct (first_decided stdin) as [Hall | (pre & line & rest & -> & Hpre & Hline)].
      { rewrite exit_menu_eof by done. by intros [= <-]. }
      destruct (decided_cases line Hline) as [Hy | Hn].
      * by rewrite exit_menu_yes.
      * by rewrite exit_menu_no.
    + intros [Hall ->]. by apply exit_menu_eof.
Qed.

(** *** The menu prompts *)

Section choice_loop.
Variables (prompt range_text value_text : string) (lo hi : Z).

Lemma rejected_dec (line : string) :
  {choice | chooses lo hi line choice} + {rejected lo hi line}.
Proof.
  unfold rejected, chooses. destruct (py_int (strip line)) as [n|].
  - destruct (decide (lo ≤ n ≤ hi)%Z) as [Hn | Hn].
    + left. by exists n.
    + right. intros choice [[= <-] ?]. done.
  - right. by intros choice [? _].
Defined.

Lemma choice_loop_accept (line : string) (choice : Z) (stdin : list string) (w : world) :
  chooses lo hi line choice →
  choice_loop prompt range_text value_text lo hi (line :: stdin) w =
  Ret (choice, stdin) (print prompt w).
Proof.
  intros [Hint [Hlo Hhi]]. simpl. rewrite Hint.
  apply Z.leb_le in Hlo, Hhi. by rewrite Hlo, Hhi.
Qed.

Lemma choice_loop_reject (line : string) (stdin : list string) (w : world) :
  rejected lo hi line →
  choice_loop prompt range_text value_text lo hi (line :: stdin) w =
  choice_loop prompt range_text value_text lo hi stdin
    (reject prompt range_text value_text w line).
Proof.
  intros Hrej. simpl. unfold reject.
  destruct (py_int (strip line)) as [n|] eqn:Hint; [| done].
  destruct ((lo <=? n)%Z && (n <=? hi)%Z) eqn:Hrange; [| done].
  apply andb_true_iff in Hrange as [Hlo%Z.leb_le Hhi%Z.leb_le].
  destruct (Hrej n). by split.
Qed.

Lemma choice_loop_skip (pre rest : list string) (w : world) :
  Forall (rejected lo hi) pre →
  choice_loop prompt range_text value_text lo hi (pre ++ rest) w =
  choice_loop prompt range_text value_text lo hi rest
    (foldl (reject prompt range_text value_text) w pre).
Proof.
  revert w. induction pre as [|p pre IH]; intros w Hpre; [done |].
  apply Forall_cons in Hpre as [Hp Hpre].
  rewrite <- app_comm_cons, choice_loop_reject by done. by rewrite IH.
Qed.

Lemma first_choice (stdin : list string) :
  Forall (rejected lo hi) stdin ∨
  ∃ pre line rest choice,
    stdin = pre ++ line :: rest ∧ Forall (rejected lo hi) pre ∧ chooses lo hi line choice.
Proof.
  induction stdin as [|l stdin IH]; [by left |].
  destruct (rejected_dec l) as [[n Hn] | Hl].
  - right. by exists [], l, stdin, n.
  - destruct IH as [IH | (pre & line & rest & n & -> & Hpre & Hline)].
    + left. by constructor.
    + right. exists (l :: pre), line, rest, n.
      split; [done |]. split; [by constructor | done].
Qed.

Lemma choice_loop_returns (pre : list string) (line : string) (rest : list string)
    (choice : Z) (w : world) :
  Forall (rejected lo hi) pre → chooses lo hi line choice →
  choice_loop prompt range_text value_text lo hi (pre ++ line :: rest) w =
  Ret (choice, rest) (print prompt (foldl (reject prompt range_text value_text) w pre)).
Proof. intros Hpre Hline. rewrite choice_loop_skip by done. by apply choice_loop_accept. Qed.

Lemma choice_loop_eof (stdin : list string) (w : world) :
  Forall (rejected lo hi) stdin →
  choice_loop prompt range_text value_text lo hi stdin w =
  Raise EOFError (print prompt (foldl (reject prompt range_text value_text) w stdin)).
Proof.
  intros Hall. rewrite <- (app_nil_r stdin) at 1. by rewrite choice_loop_skip.
Qed.


End choice_loop.


(** *** The file name of [save_all_to_csv] *)

Lemma ask_filename_given (name : string) (stdin : list string) (w : world) :
  name ≠ "" → ask_filename name stdin w = Ret (name, stdin) w.
Proof. intros Hne%String.eqb_neq. destruct stdin; simpl; by rewrite Hne. Qed.

Lemma ask_filename_skip (pre rest : list string) (w : world) :
  Forall blank pre →
  ask_filename "" (pre ++ rest) w = ask_filename "" rest (printed (length pre) filename_prompt w).
Proof.
  revert w. induction pre as [|p pre IH]; intros w Hpre; [done |].
  apply Forall_cons in Hpre as [Hp Hpre]. red in Hp.
  rewrite <- app_comm_cons. simpl ask_filename at 1. rewrite Hp.
  rewrite IH by done. simpl length. by rewrite printed_print.
Qed.

Lemma ask_filename_returns (pre : list string) (line : string) (rest : list string)
    (w : world) :
  Forall blank pre → ¬ blank line →
  ask_filename "" (pre ++ line :: rest) w =
  Ret (strip line, rest) (printed (S (length pre)) filename_prompt w).
Proof.
  intros Hpre Hline. rewrite ask_filename_skip by done.
  simpl ask_filename at 1. by rewrite ask_filename_given.
Qed.

Lemma ask_filename_eof (stdin : list string) (w : world) :
  Forall blank stdin →
  ask_filename "" stdin w = Raise EOFError (printed (S (length stdin)) filename_prompt w).
Proof.
  intros Hall. rewrite <- (app_nil_r stdin) at 1. by rewrite ask_filename_skip.
Qed.

(** When no line names a file the script stops on the end of the input and
    nothing is written. *)
Lemma save_all_to_csv_eof (all_stocks : list dict) (titles stdin : list string)
    (w : world) :
  Forall blank stdin →
  ∃ w', save_all_to_csv all_stocks titles stdin w = Raise EOFError w' ∧
        files w' = files w.
Proof.
  intros Hall. unfold save_all_to_csv. rewrite ask_filename_eof by done.
  eexists. split; [done |]. simpl. by rewrite files_printed.
Qed.

(** The run of [save_all_to_csv] on the first line that names a file. *)
Lemma save_all_to_csv_run (all_stocks : list dict) (titles pre : list string)
    (line : string) (rest : list string) (rows : list dict) (w : world) :
  Forall blank pre → ¬ blank line →
  rows_of all_stocks (cleaned_titles titles) = inr rows →
  save_all_to_csv all_stocks titles (pre ++ line :: rest) w =
  Ret ((), rest)
    (saved_all titles (csv_filename (strip line)) rows
       (printed (S (length pre)) filename_prompt w)).
Proof.
  intros Hpre Hline Hrows.
  unfold save_all_to_csv. rewrite ask_filename_returns by done.
  cbn [obind]. rewrite Hrows. cbn [lift obind].
  unfold saved_all. rewrite !files_printed.
  by destruct (files w !! csv_filename (strip line)) as [old|].
Qed.


(** C2, at the input where it fails: [save_all_to_csv] does not read the
    rows of the file, so saving the same list to the same file again writes
    the row of every record a second time. *)
Theorem save_all_to_csv_repeats_rows :
  ∃ w',
    save_all_to_csv [Sample.aapl] summary_statistics_titles ["stocks"] Inputs.saved_once =
      Ret ((), []) w' ∧
    files Inputs.saved_once !! "stocks.csv" =
      Some [cleaned_titles summary_statistics_titles; Inputs.aapl_row] ∧
    files w' !! "stocks.csv" =
      Some [cleaned_titles summary_statistics_titles; Inputs.aapl_row; Inputs.aapl_row].
Proof.
  eexists. split; [| split].
  - apply (save_all_to_csv_run [Sample.aapl] summary_statistics_titles [] "stocks" []
             Inputs.aapl_rows Inputs.saved_once); [done | | ].
    + intros Hblank. discriminate Hblank.
    + reflexivity.
  - reflexivity.
  - reflexivity.
Qed.


(** *** Dates *)





























(** *** Records and CSV rows *)

Lemma stat_key_in_keys (i : nat) : (i < 14)%nat → stat_key i ∈ stat_keys.
Proof.
  intros Hi. unfold stat_keys. apply elem_of_list_to_set, list_elem_of_fmap.
  exists i. split; [done |]. apply elem_of_seq. lia.
Qed.

Lemma record_lookup (sum_stats : dict) (i : nat) :
  dom sum_stats = stat_keys → (i < 14)%nat → is_Some (sum_stats !! stat_key i).
Proof. intros Hdom Hi. apply elem_of_dom. rewrite Hdom. by apply stat_key_in_keys. Qed.

(** Building the row of a record never fails, and the fields of the row
    are the values of the record. *)
Lemma row_of_stats_record (sum_stats : dict) (cleaned : list string) (i : nat) (acc : dict) :
  (∀ j, (i ≤ j < i + length cleaned)%nat → is_Some (sum_stats !! stat_key j)) →
  row_of_stats sum_stats i cleaned acc =
  inr (foldl (λ d kv, <[kv.1 := kv.2]> d) acc
         (zip cleaned ((λ j, default "" (sum_stats !! stat_key j)) <$>
                       seq i (length cleaned)))).
Proof.
  revert i acc. induction cleaned as [|title cleaned IH]; intros i acc Hkeys; [done |].
  simpl. unfold getitem.
  destruct (Hkeys i) as [v Hv]; [simpl; lia |]. rewrite Hv. simpl.
  apply IH. intros j Hj. apply Hkeys. simpl. lia.
Qed.

Lemma lookup_foldl_insert_zip (keys vals : list string) (acc : dict) (n : nat)
    (k : string) :
  NoDup keys → length vals = length keys → keys !! n = Some k →
  foldl (λ d kv, <[kv.1 := kv.2]> d) acc (zip keys vals) !! k = vals !! n.
Proof.
  revert vals acc n. induction keys as [|k0 keys IH]; intros vals acc n Hnd Hlen Hk.
  { by rewrite lookup_nil in Hk. }
  destruct vals as [|v vals]; [done |]. simpl in Hlen. injection Hlen as Hlen.
  apply NoDup_cons in Hnd as [Hk0 Hnd]. simpl.
  destruct n as [|n]; simpl in *.
  - injection Hk as ->. clear IH. revert vals acc Hlen.
    induction keys as [|k1 keys IH]; intros vals acc Hlen; simpl.
    + by rewrite lookup_insert_eq.
    + destruct vals as [|v1 vals]; [done |]. simpl in Hlen. injection Hlen as Hlen.
      apply not_elem_of_cons in Hk0 as [Hne Hk0]. apply NoDup_cons in Hnd as [_ Hnd].
      simpl. rewrite insert_insert_ne by done. by apply IH.
  - by apply IH.
Qed.

Lemma writerow_foldl_insert_zip (keys vals : list string) :
  NoDup keys → length vals = length keys →
  writerow keys (foldl (λ d kv, <[kv.1 := kv.2]> d) ∅ (zip keys vals)) = vals.
Proof.
  intros Hnd Hlen. unfold writerow. apply list_eq. intros n.
  rewrite list_lookup_fmap.
  destruct (keys !! n) as [k|] eqn:Hk; simpl.
  - rewrite (lookup_foldl_insert_zip keys vals ∅ n k) by done.
    destruct (vals !! n) as [v|] eqn:Hv; [done |].
    apply lookup_ge_None in Hv. apply lookup_lt_Some in Hk. lia.
  - apply lookup_ge_None in Hk. symmetry. apply lookup_ge_None. lia.
Qed.

Lemma cleaned_titles_NoDup : NoDup (cleaned_titles summary_statistics_titles).
Proof. apply (bool_decide_unpack _). vm_compute. exact I. Qed.

Lemma cleaned_titles_date_range :
  cleaned_titles summary_statistics_titles !! 1%nat = Some "date_range".
Proof. reflexivity. Qed.

(** The row [save_one_stock_to_csv] and [save_all_to_csv] build from a
    record. *)
Lemma new_row_of_record (sum_stats : dict) :
  dom sum_stats = stat_keys →
  ∃ new_row,
    new_row_of sum_stats (cleaned_titles summary_statistics_titles) = inr new_row ∧
    writerow (cleaned_titles summary_statistics_titles) new_row = stat_values sum_stats ∧
    new_row !! "date_range" = sum_stats !! "stat2".
Proof.
  intros Hdom. eexists. split; [| split].
  - unfold new_row_of. apply row_of_stats_record.
    intros j Hj. apply record_lookup; [done |]. simpl in Hj. lia.
  - by apply writerow_foldl_insert_zip; [apply cleaned_titles_NoDup |].
  - rewrite (lookup_foldl_insert_zip _ _ ∅ 1 "date_range");
      [| apply cleaned_titles_NoDup | done | done].
    change (length (cleaned_titles summary_statistics_titles)) with 14%nat.
    simpl. destruct (record_lookup sum_stats 1 Hdom) as [v Hv]; [lia |].
    change (stat_key 1) with "stat2" in *. by rewrite Hv.
Qed.

(** *** Reading a CSV file *)

Lemma elem_of_dom_foldl_insert {V} (f : string * string → V)
    (l : list (string * string)) (acc : gmap string V) (k : string) :
  k ∈ dom (foldl (λ d kv, <[kv.1 := f kv]> d) acc l) ↔ k ∈ dom acc ∨ k ∈ l.*1.
Proof.
  revert acc. induction l as [|kv l IH]; intros acc; simpl.
  - rewrite elem_of_nil. tauto.
  - rewrite IH, dom_insert_L, elem_of_union, elem_of_singleton, elem_of_cons. tauto.
Qed.

Lemma elem_of_dom_foldl_keys {V} (v : V) (l : list string) (acc : gmap string V)
    (k : string) :
  k ∈ dom (foldl (λ d key, <[key := v]> d) acc l) ↔ k ∈ dom acc ∨ k ∈ l.
Proof.
  revert acc. induction l as [|k0 l IH]; intros acc; simpl.
  - rewrite elem_of_nil. tauto.
  - rewrite IH, dom_insert_L, elem_of_union, elem_of_singleton, elem_of_cons. tauto.
Qed.

Lemma zip_drop_keys (fieldnames row : list string) (k : string) :
  k ∈ (zip fieldnames row).*1 ∨ k ∈ drop (length row) fieldnames ↔ k ∈ fieldnames.
Proof.
  revert row. induction fieldnames as [|f fieldnames IH]; intros row.
  - rewrite drop_nil. simpl. rewrite elem_of_nil. tauto.
  - destruct row as [|r row]; simpl.
    + rewrite elem_of_nil. tauto.
    + rewrite !elem_of_cons, <- (IH row). tauto.
Qed.

(** A row read by [csv.DictReader] has exactly the fields the header names. *)
Lemma reader_row_fields (fieldnames row : list string) (k : string) :
  is_Some (reader_row fieldnames row !! k) ↔ k ∈ fieldnames.
Proof.
  rewrite <- elem_of_dom. unfold reader_row.
  rewrite elem_of_dom_foldl_keys.
  rewrite (elem_of_dom_foldl_insert (λ kv, Some kv.2)), dom_empty_L, elem_of_empty.
  rewrite <- (zip_drop_keys fieldnames row k). tauto.
Qed.

(** The rows of one file have the same fields. *)
Lemma DictReader_same_fields (content : csv_file)
    (row1 row2 : gmap string (option string)) (k : string) :
  row1 ∈ DictReader content → row2 ∈ DictReader content →
  is_Some (row1 !! k) → is_Some (row2 !! k).
Proof.
  destruct content as [|fieldnames records]; simpl; [by intros ?%elem_of_nil |].
  intros (r1 & -> & _)%list_elem_of_fmap (r2 & -> & _)%list_elem_of_fmap.
  rewrite !reader_row_fields. done.
Qed.

Lemma has_date_range_column (content : csv_file) (stat2 : string) :
  has_date_range content stat2 → date_range_column content.
Proof.
  intros (row & Hrow & Hfield) row' Hrow'.
  apply (DictReader_same_fields content row row'); [done | done |].
  by rewrite Hfield.
Qed.

(** The search for a row with the date range of the new row. *)
Lemma find_duplicate_found (rows : list (gmap string (option string)))
    (new_row : dict) (stat2 : string) :
  new_row !! "date_range" = Some stat2 →
  Forall (λ row, is_Some (row !! "date_range")) rows →
  (∃ row, row ∈ rows ∧ row !! "date_range" = Some (Some stat2)) →
  find_duplicate rows new_row = inr true.
Proof.
  intros Hnew. induction 1 as [|row rows [old Hold] Hrows IH]; simpl.
  - by intros (row & ?%elem_of_nil & _).
  - intros (row' & Hin & Hrow'). unfold getitem at 1 2. rewrite Hold, Hnew.
    destruct (decide (old = Some stat2)) as [-> | Hne]; [done |].
    apply IH. apply elem_of_cons in Hin as [-> | Hin]; [congruence |].
    by exists row'.
Qed.


Lemma find_duplicate_KeyError (row : gmap string (option string))
    (rows : list (gmap string (option string))) (new_row : dict) :
  row !! "date_range" = None →
  find_duplicate (row :: rows) new_row = inl (KeyError "date_range").
Proof. intros Hrow. simpl. unfold getitem at 1. by rewrite Hrow. Qed.

(** *** Saving one record *)

Section save_one.
Variables (sum_stats : dict) (stat1 stat2 : string) (w : world).
Hypothesis Hrecord : dom sum_stats = stat_keys.
Hypothesis Hstat1 : sum_stats !! "stat1" = Some stat1.
Hypothesis Hstat2 : sum_stats !! "stat2" = Some stat2.

(** The steps of [save_one_stock_to_csv] up to the reading of the file. *)
Lemma save_one_unfold :
  ∃ new_row,
    writerow (cleaned_titles summary_statistics_titles) new_row = stat_values sum_stats ∧
    new_row !! "date_range" = Some stat2 ∧
    save_one_stock_to_csv sum_stats summary_statistics_titles w =
    let cleaned := cleaned_titles summary_statistics_titles in
    match match files w !! stock_filename stat1 stat2 with
          | Some content => find_duplicate (DictReader content) new_row
          | None => inr false
          end with
    | inl e => Raise e w
    | inr true => Ret () (print (already_saved stat1 stat2 (stock_filename stat1 stat2)) w)
    | inr false =>
        Ret () (saved_one (stock_filename stat1 stat2)
                  (default [] (files w !! stock_filename stat1 stat2) ++
                   (if bool_decide (is_Some (files w !! stock_filename stat1 stat2))
                    then [] else [cleaned]) ++
                   [writerow cleaned new_row]) w)
    end.
Proof.
  destruct (new_row_of_record sum_stats Hrecord) as (new_row & Hrow & Hwrite & Hkey).
  exists new_row. split; [done |]. split; [congruence |].
  unfold save_one_stock_to_csv, getitem. rewrite Hstat1, Hstat2.
  cbn [lift obind]. rewrite Hrow. cbn [lift obind].
  by destruct (match files w !! stock_filename stat1 stat2 with
               | Some content => find_duplicate (DictReader content) new_row
               | None => inr false
               end) as [e | []].
Qed.

Lemma save_one_new_file :
  files w !! stock_filename stat1 stat2 = None →
  save_one_stock_to_csv sum_stats summary_statistics_titles w =
  Ret () (saved_one (stock_filename stat1 stat2)
            [cleaned_titles summary_statistics_titles; stat_values sum_stats] w).
Proof.
  intros Hfile. destruct save_one_unfold as (new_row & Hwrite & Hkey & ->).
  cbv zeta. rewrite Hfile, Hwrite. done.
Qed.

Lemma save_one_duplicate (content : csv_file) :
  files w !! stock_filename stat1 stat2 = Some content → has_date_range content stat2 →
  save_one_stock_to_csv sum_stats summary_statistics_titles w =
  Ret () (print (already_saved stat1 stat2 (stock_filename stat1 stat2)) w).
Proof.
  intros Hfile Hdup. destruct save_one_unfold as (new_row & Hwrite & Hkey & ->).
  cbv zeta. rewrite Hfile.
  rewrite (find_duplicate_found _ _ stat2); [done | done | | done].
  apply Forall_forall. by apply (has_date_range_column content stat2).
Qed.


End save_one.




(** *** The statistics *)

Lemma stat_keys_union :
  ({["stat14"]} ∪ ({["stat13"]} ∪ ({["stat12"]} ∪ ({["stat11"]} ∪ ({["stat10"]} ∪
   ({["stat9"]} ∪ ({["stat8"]} ∪ ({["stat7"]} ∪ ({["stat6"]} ∪ ({["stat5"]} ∪
   ({["stat4"]} ∪ ({["stat3"]} ∪ ({["stat2"]} ∪ ({["stat1"]} ∪ ∅))))))))))))) : gset string)
  = stat_keys.
Proof. apply (bool_decide_unpack _). vm_compute. exact I. Qed.

Lemma stat_keys_size : size stat_keys = 14%nat.
Proof. vm_compute. reflexivity. Qed.

Section statistics.
Context `{Env}.

Lemma sum_stats_of_dom (tk : ticker_info) (first last : bar float)
    (data : list (bar float)) :
  dom (sum_stats_of tk first last data) = stat_keys.
Proof.
  unfold sum_stats_of. rewrite !dom_insert_L, dom_empty_L. apply stat_keys_union.
Qed.

(** C4: on an empty table [stock_summary_statistics] returns [None]; on
    every other table it returns a record with exactly the fourteen keys
    [stat1] to [stat14], holding the ticker with the name, the range of the
    dates of the table, the number of its rows, and the formatted opening,
    closing, average, highest and lowest prices, volatilities, total return
    and average volume. *)
Theorem stock_summary_statistics_record (tk : ticker_info) (start_date end_date : date) :
  match history (ticker tk) start_date end_date with
  | [] => stock_summary_statistics tk start_date end_date = None
  | first :: rest =>
      let data := first :: rest in
      let last := default first (last data) in
      let closes := Close <$> data in
      let money x := "$" +:+ format_float 2 x in
      ∃ stats,
        stock_summary_statistics tk start_date end_date = Some stats ∧
        dom stats = stat_keys ∧ size stats = 14%nat ∧
        stats !! "stat1" = Some (ticker tk +:+ " (" +:+ long_name tk +:+ ")") ∧
        stats !! "stat2" =
          Some (isoformat (bar_date first) +:+ " to " +:+ isoformat (bar_date last)) ∧
        stats !! "stat3" = Some (format_comma (Z.of_nat (length data))) ∧
        stats !! "stat4" = Some (money (Open first)) ∧
        stats !! "stat5" = Some (money (Close last)) ∧
        stats !! "stat6" = Some (money (series_mean closes)) ∧
        stats !! "stat7" = Some (money (series_max closes)) ∧
        stats !! "stat8" = Some (money (series_max (High <$> data))) ∧
        stats !! "stat9" = Some (money (series_min closes)) ∧
        stats !! "stat10" = Some (money (series_min (Low <$> data))) ∧
        is_Some (stats !! "stat11") ∧ is_Some (stats !! "stat12") ∧
        stats !! "stat13" =
          Some (format_float 4
                  (float_mul (float_div (float_sub (Close last) (Open first)) (Open first))
                     (float_of_Z 100)) +:+ "%") ∧
        stats !! "stat14" =
          Some (format_comma (py_round (series_mean (float_of_Z ∘ Volume <$> data))))
  end.
Proof.
  unfold stock_summary_statistics.
  destruct (history (ticker tk) start_date end_date) as [|first rest] eqn:Hdata; [done |].
  cbv zeta.
  destruct (last (first :: rest)) as [final|] eqn:Hlast;
    [| by apply last_None in Hlast].
  cbn [default].
  eexists. split; [reflexivity |].
  split; [apply sum_stats_of_dom |].
  split; [rewrite <- size_dom, sum_stats_of_dom; apply stat_keys_size |].
  unfold sum_stats_of. repeat split; try (by simplify_map_eq).
Qed.


End statistics.


(** *** The list of analyzed stocks *)

Lemma already_analyzed_false (stocks : list dict) (summary_statistics : dict) :
  already_analyzed stocks summary_statistics = inr false →
  ∀ stock, stock ∈ stocks → record_key stock ≠ record_key summary_statistics.
Proof.
  unfold record_key. induction stocks as [|d stocks IH]; simpl.
  - by intros _ stock ?%elem_of_nil.
  - unfold getitem.
    destruct (d !! "stat1") as [a|] eqn:Ha; [| done].
    destruct (summary_statistics !! "stat1") as [b|] eqn:Hb; [| done].
    destruct (decide (a = b)) as [-> | Hab].
    + destruct (d !! "stat2") as [a2|] eqn:Ha2; [| done].
      destruct (summary_statistics !! "stat2") as [b2|] eqn:Hb2; [| done].
      destruct (decide (a2 = b2)) as [-> | Hab2]; [done |].
      intros Hrest stock [-> | Hin]%elem_of_cons; [| by apply IH].
      rewrite Ha2. congruence.
    + intros Hrest stock [-> | Hin]%elem_of_cons; [| by apply IH].
      rewrite Ha. congruence.
Qed.

Lemma already_analyzed_known (stocks : list dict) (summary_statistics : dict) :
  keyed stocks →
  is_Some (summary_statistics !! "stat1") → is_Some (summary_statistics !! "stat2") →
  (∃ stock, stock ∈ stocks ∧ record_key stock = record_key summary_statistics) →
  already_analyzed stocks summary_statistics = inr true.
Proof.
  unfold record_key. intros Hkeyed [b Hb] [b2 Hb2]. rewrite Hb, Hb2.
  induction Hkeyed as [|d stocks [[a Ha] [a2 Ha2]] Hkeyed IH]; simpl.
  - by intros (stock & ?%elem_of_nil & _).
  - intros (stock & Hin & Hkey). unfold getitem. rewrite Ha, Hb, Ha2, Hb2.
    destruct (decide (a = b)) as [-> | Hab].
    + destruct (decide (a2 = b2)) as [-> | Hab2]; [done |].
      apply IH. apply elem_of_cons in Hin as [-> | Hin]; [| by exists stock].
      rewrite Ha2 in Hkey. congruence.
    + apply IH. apply elem_of_cons in Hin as [-> | Hin]; [| by exists stock].
      rewrite Ha in Hkey. congruence.
Qed.

(** The statistics of a record are printed under the fourteen titles. *)
Lemma print_statistics_record (stats : dict) (indices : list nat) (w : world) :
  dom stats = stat_keys → Forall (λ i, (i < 14)%nat) indices →
  ∃ w', print_statistics summary_statistics_titles stats indices w = Ret () w' ∧
        files w' = files w.
Proof.
  intros Hdom Hall. revert w.
  induction Hall as [|i indices Hi Hall IH]; intros w; simpl.
  - by exists w.
  - destruct (lookup_lt_is_Some_2 summary_statistics_titles i) as [title ->];
      [simpl; lia |].
    destruct (record_lookup stats i Hdom Hi) as [v Hv].
    unfold getitem. rewrite Hv. cbn [lift obind].
    destruct (IH (print (title +:+ v) w)) as (w' & -> & Hfiles). by exists w'.
Qed.

Section analyze.
Context `{Env}.

Lemma record_stock_inv (stocks : list dict) (titles : list string) (tk : ticker_info)
    (start_date end_date : date) (summary_statistics r : dict) (stocks' : list dict)
    (w w' : world) :
  record_stock stocks titles tk start_date end_date summary_statistics w =
    Ret (r, stocks') w' →
  r = summary_statistics ∧
  (stocks' = stocks ∨
   stocks' = stocks ++ [summary_statistics] ∧
   already_analyzed stocks summary_statistics = inr false).
Proof.
  unfold record_stock.
  destruct (print_statistics _ _ _ _) as [[] w1 | e w1]; [| done]. cbn [obind].
  destruct (already_analyzed stocks summary_statistics) as [e | [|]] eqn:Hfound;
    cbn [lift obind]; [done | |].
  - intros [= <- <- <-]. split; [done | by left].
  - intros [= <- <- <-]. split; [done | by right].
Qed.

(** Lines 200-220 on statistics that a record of the list already has the
    key of: the statistics are returned and the list is left as it was. *)
Lemma record_stock_known (stocks : list dict) (tk : ticker_info)
    (start_date end_date : date) (summary_statistics : dict) (w : world) :
  dom summary_statistics = stat_keys → keyed stocks →
  (∃ stock, stock ∈ stocks ∧ record_key stock = record_key summary_statistics) →
  ∃ w', record_stock stocks summary_statistics_titles tk start_date end_date
          summary_statistics w = Ret (summary_statistics, stocks) w' ∧
        files w' = files w.
Proof.
  intros Hdom Hkeyed Hknown. unfold record_stock.
  edestruct (print_statistics_record summary_statistics
               (seq 0 (size summary_statistics))) as (w1 & -> & Hfiles); [done | |].
  { rewrite <- size_dom, Hdom, stat_keys_size. apply Forall_forall.
    intros i Hi%elem_of_seq. lia. }
  cbn [obind]. rewrite (already_analyzed_known stocks summary_statistics);
    [| done | apply (record_lookup _ 0 Hdom); lia | apply (record_lookup _ 1 Hdom); lia
     | done].
  cbn [lift obind]. eexists. split; [done |]. exact Hfiles.
Qed.

(** What [analyze_stock] returns was computed by [stock_summary_statistics]
    for a ticker and two dates, and went through lines 200-220. *)
Lemma analyze_stock_inv (stocks : list dict) (titles : list string) (n : nat) :
  ∀ (stdin : list string) (w : world) r stocks' rest w',
    (length stdin ≤ n)%nat →
    analyze_stock stocks titles stdin w = Ret ((r, stocks'), rest) w' →
    ∃ tk start_date end_date w0,
      stock_summary_statistics tk start_date end_date = Some r ∧
      record_stock stocks titles tk start_date end_date r w0 = Ret (r, stocks') w'.
Proof.
  induction n as [|n IH]; intros stdin w r stocks' rest w' Hlen Hrun.
  { destruct stdin; [done | simpl in Hlen; lia]. }
  destruct stdin as [|line1 stdin1]; [done |]. simpl in Hlen.
  cbn [analyze_stock] in Hrun.
  destruct (validate_ticker _ _) as [[tk|] w1].
  2: { apply IH in Hrun; [done | lia]. }
  destruct stdin1 as [|line2 stdin2]; [done |]. simpl in Hlen.
  destruct (validate_date (strip line2) _) as [[start_date|] w2].
  2: { apply IH in Hrun; [done | lia]. }
  destruct stdin2 as [|line3 stdin3]; [done |]. simpl in Hlen.
  destruct (validate_date (strip line3) _) as [[end_date|] w3].
  2: { apply IH in Hrun; [done | lia]. }
  destruct (date_ge start_date end_date).
  { apply IH in Hrun; [done | lia]. }
  destruct (date_gt start_date today || date_gt end_date today).
  { apply IH in Hrun; [done | lia]. }
  destruct (stock_summary_statistics tk start_date end_date) as [ss|] eqn:Hss.
  2: { apply IH in Hrun; [done | lia]. }
  destruct (record_stock _ _ _ _ _ _ _) as [[r1 stocks1] w4 | e w4] eqn:Hrec; [| done].
  cbn [obind] in Hrun. injection Hrun as <- <- <- <-.
  destruct (record_stock_inv _ _ _ _ _ _ _ _ _ _ Hrec) as [-> _].
  exists tk, start_date, end_date. eexists. split; [done | exact Hrec].
Qed.

Lemma analyze_stock_all_stocks (stocks : list dict) (titles stdin : list string)
    (w : world) (r : dict) (stocks' : list dict) (rest : list string) (w' : world) :
  analyze_stock stocks titles stdin w = Ret ((r, stocks'), rest) w' →
  (∃ tk start_date end_date, stock_summary_statistics tk start_date end_date = Some r) ∧
  (stocks' = stocks ∨
   stocks' = stocks ++ [r] ∧
   ∀ stock, stock ∈ stocks → record_key stock ≠ record_key r).
Proof.
  intros Hrun.
  destruct (analyze_stock_inv stocks titles (length stdin) stdin w r stocks' rest w')
    as (tk & start_date & end_date & w0 & Hss & Hrec); [done | done |].
  split; [by exists tk, start_date, end_date |].
  destruct (record_stock_inv _ _ _ _ _ _ _ _ _ _ Hrec) as [_ [-> | [-> Hnew]]].
  - by left.
  - right. split; [done |]. by apply already_analyzed_false.
Qed.

End analyze.

Section session.
Context `{Env}.

Lemma stock_summary_statistics_dom (tk : ticker_info) (start_date end_date : date)
    (stats : dict) :
  stock_summary_statistics tk start_date end_date = Some stats → dom stats = stat_keys.
Proof.
  unfold stock_summary_statistics.
  destruct (history (ticker tk) start_date end_date) as [|first rest]; [done |].
  destruct (last (first :: rest)) as [final|]; [| done].
  intros [= <-]. apply sum_stats_of_dom.
Qed.

(** C8: when the statistics [analyze_stock] has computed have the [stat1]
    and the [stat2] of a record of [all_stocks], the call returns these
    statistics and leaves the list as it was: nothing is added, removed or
    changed.  The first part reads this off every run that returns; the
    second shows that lines 200-220 do return, for the titles of [main] and
    a list of records with the two fields. *)
Theorem analyze_stock_known (stocks : list dict) :
  (∀ titles stdin w r stocks' rest w',
     analyze_stock stocks titles stdin w = Ret ((r, stocks'), rest) w' →
     (∃ stock, stock ∈ stocks ∧ record_key stock = record_key r) →
     stocks' = stocks ∧
     ∃ tk start_date end_date, stock_summary_statistics tk start_date end_date = Some r) ∧
  (∀ tk start_date end_date summary_statistics w,
     stock_summary_statistics tk start_date end_date = Some summary_statistics →
     keyed stocks →
     (∃ stock, stock ∈ stocks ∧ record_key stock = record_key summary_statistics) →
     ∃ w', record_stock stocks summary_statistics_titles tk start_date end_date
             summary_statistics w = Ret (summary_statistics, stocks) w' ∧
           files w' = files w).
Proof.
  split.
  - intros titles stdin w r stocks' rest w' Hrun (stock & Hin & Hkey).
    destruct (analyze_stock_all_stocks _ _ _ _ _ _ _ _ Hrun) as [Hfresh [-> | [_ Hnew]]].
    + done.
    + by destruct (Hnew stock Hin).
  - intros tk start_date end_date summary_statistics w Hss Hkeyed Hknown.
    apply record_stock_known; [| done | done].
    by apply (stock_summary_statistics_dom tk start_date end_date).
Qed.

Ltac run_call H :=
  match type of H with
  | obind ?o _ = Ret _ _ =>
      let E := fresh "Hcall" in
      destruct o as [? ?|? ?] eqn:E; cbn [obind] in H; [| discriminate H]
  end.

(** One round of a menu leaves [all_stocks] as it was, or is an analysis
    that has put its record at the end. *)
Lemma main_step_all_stocks (c c' : config) (w w' : world) :
  main_step c w = Ret c' w' →
  all_stocks c' = all_stocks c ∨
  ∃ r, at_menu c' = StockMenu r ∧ all_stocks c' = all_stocks c ++ [r] ∧
       ∀ stock, stock ∈ all_stocks c → record_key stock ≠ record_key r.
Proof.
  unfold main_step. intros Hstep. destruct (at_menu c) as [|stock_data|].
  - run_call Hstep. destruct a as [choice stdin1].
    destruct (choice =? 1)%Z.
    { run_call Hstep. destruct a as [[r stocks'] stdin2]. injection Hstep as <- <-.
      destruct (analyze_stock_all_stocks _ _ _ _ _ _ _ _ Hcall0) as [_ [-> | [-> Hnew]]];
        [by left | right; by exists r]. }
    destruct (choice =? 2)%Z.
    { destruct (all_stocks c); injection Hstep as <- <-; by left. }
    destruct (choice =? 3)%Z.
    { injection Hstep as <- <-. by left. }
    run_call Hstep. destruct a as [[] stdin2]. injection Hstep as <- <-. by left.
  - run_call Hstep. destruct a as [choice stdin1].
    destruct (choice =? 1)%Z.
    { run_call Hstep. injection Hstep as <- <-. by left. }
    destruct (choice =? 2)%Z.
    { run_call Hstep. destruct a as [[r stocks'] stdin2]. injection Hstep as <- <-.
      destruct (analyze_stock_all_stocks _ _ _ _ _ _ _ _ Hcall0) as [_ [-> | [-> Hnew]]];
        [by left | right; by exists r]. }
    destruct (choice =? 3)%Z.
    { injection Hstep as <- <-. by left. }
    run_call Hstep. destruct a as [[] stdin2]. injection Hstep as <- <-. by left.
  - run_call Hstep. destruct a as [choice stdin1].
    destruct (choice =? 1)%Z.
    { run_call Hstep. injection Hstep as <- <-. by left. }
    destruct (choice =? 2)%Z.
    { run_call Hstep. destruct a as [[] stdin2]. injection Hstep as <- <-. by left. }
    destruct (choice =? 3)%Z.
    { run_call Hstep. destruct a as [[|] stdin2]; injection Hstep as <- <-; by left. }
    destruct (choice =? 4)%Z.
    { injection Hstep as <- <-. by left. }
    run_call Hstep. destruct a as [[] stdin2]. injection Hstep as <- <-. by left.
Qed.

Lemma NoDup_record_key_snoc (stocks : list dict) (r : dict) :
  NoDup (record_key <$> stocks) →
  (∀ stock, stock ∈ stocks → record_key stock ≠ record_key r) →
  NoDup (record_key <$> stocks ++ [r]).
Proof.
  intros Hnd Hnew. rewrite fmap_app. apply NoDup_app. split; [done |]. split.
  - intros k (stock & -> & Hin)%list_elem_of_fmap [E | []%elem_of_nil]%elem_of_cons.
    by apply (Hnew stock).
  - apply NoDup_singleton.
Qed.

Lemma main_rounds_NoDup (rounds : nat) (c c' : config) (w w' : world) :
  NoDup (record_key <$> all_stocks c) →
  main_rounds rounds c w = Ret c' w' →
  NoDup (record_key <$> all_stocks c').
Proof.
  revert c w. induction rounds as [|rounds IH]; intros c w Hnd Hrun; simpl in Hrun.
  - by injection Hrun as <- <-.
  - destruct (main_step c w) as [c1 w1 | e w1] eqn:Hstep; [| done]. cbn [obind] in Hrun.
    apply (IH c1 w1); [| done].
    destruct (main_step_all_stocks _ _ _ _ Hstep) as [-> | (r & _ & -> & Hnew)];
      [done | by apply NoDup_record_key_snoc].
Qed.

(** C1: in every configuration the script passes through, no two records
    of [all_stocks] have the same [stat1] and the same [stat2];
    [analyze_stock] leaves the list as it was or adds the record it returns
    at the end, and adds it only when no record of the list has its [stat1]
    and [stat2]; and a round of the menus changes the list only through
    [analyze_stock]. *)
Theorem all_stocks_deduplicated :
  (∀ c, reachable c → NoDup (record_key <$> all_stocks c)) ∧
  (∀ stocks titles stdin w r stocks' rest w',
     analyze_stock stocks titles stdin w = Ret ((r, stocks'), rest) w' →
     stocks' = stocks ∨
     stocks' = stocks ++ [r] ∧
     ∀ stock, stock ∈ stocks → record_key stock ≠ record_key r) ∧
  (∀ c w c' w',
     main_step c w = Ret c' w' →
     all_stocks c' = all_stocks c ∨
     ∃ r, at_menu c' = StockMenu r ∧ all_stocks c' = all_stocks c ++ [r]).
Proof.
  split; [| split].
  - intros c (rounds & stdin & w & w' & Hrun).
    apply (main_rounds_NoDup rounds (Config MainMenu [] stdin) c w w'); [| done].
    apply NoDup_nil_2.
  - intros stocks titles stdin w r stocks' rest w' Hrun.
    by destruct (analyze_stock_all_stocks _ _ _ _ _ _ _ _ Hrun).
  - intros c w c' w' Hstep.
    destruct (main_step_all_stocks _ _ _ _ Hstep) as [-> | (r & Hmenu & -> & _)];
      [by left | right; by exists r].
Qed.

End session.

(** A session in which the same ticker and date range are analyzed twice:
    the list has the record once. *)
Example session_reachable :
  @reachable Sample.env Inputs.session_end ∧ length (all_stocks Inputs.session_end) = 1%nat.
Proof.
  split; [| reflexivity].
  exists 3%nat, Inputs.session_input, Sample.empty_world, Inputs.session_console.
  reflexivity.
Qed.

(** *** The fuel of [view_stock_graph] *)

Lemma exit_menu_reads (stdin : list string) (w : world) (rest : list string)
    (w' : world) :
  exit_menu stdin w = Ret ((), rest) w' → (length rest < length stdin)%nat.
Proof.
  destruct (first_decided stdin) as [Hall | (pre & line & rest0 & -> & Hpre & Hline)].
  { by rewrite exit_menu_eof. }
  destruct (decided_cases line Hline) as [Hy | Hn].
  - by rewrite exit_menu_yes.
  - rewrite exit_menu_no by done. intros [= <- <-].
    rewrite length_app. simpl. lia.
Qed.

(** The loop does not depend on its fuel once there is as much of it as
    there are lines to read. *)
Lemma stock_number_loop_fuel (fuel1 fuel2 : nat) (stocks : list dict)
    (stdin : list string) (w : world) :
  (length stdin ≤ fuel1)%nat → (length stdin ≤ fuel2)%nat →
  stock_number_loop fuel1 stocks stdin w = stock_number_loop fuel2 stocks stdin w.
Proof.
  revert fuel2 stdin w. induction fuel1 as [|fuel1 IH]; intros fuel2 stdin w H1 H2.
  { destruct stdin; [by destruct fuel2 | simpl in H1; lia]. }
  destruct stdin as [|line stdin]; [by destruct fuel2 |].
  destruct fuel2 as [|fuel2]; [simpl in H2; lia |]. simpl in H1, H2.
  cbn [stock_number_loop].
  destruct (py_int (strip line)) as [n|]; [| apply IH; lia].
  destruct (negb _); [apply IH; lia |].
  destruct (n =? _)%Z; [done |]. destruct (n =? _)%Z; [done |].
  destruct (n =? _)%Z; [| done].
  destruct (exit_menu stdin _) as [[[] rest] w1 | e w1] eqn:Hexit; [| done].
  cbn [obind]. apply exit_menu_reads in Hexit. apply IH; lia.
Qed.

(** *** The script on concrete inputs *)

Example strip_example : strip "  my stocks  " = "my stocks".
Proof. reflexivity. Qed.

Example py_int_examples :
  py_int " 3 " = Some 3%Z ∧ py_int "+4" = Some 4%Z ∧ py_int "007" = Some 7%Z ∧
  py_int "1_0" = Some 10%Z ∧ py_int "-2" = Some (-2)%Z ∧
  py_int "" = None ∧ py_int "two" = None ∧ py_int "1__0" = None ∧ py_int "2.0" = None.
Proof. repeat split. Qed.

Example strptime_examples :
  strptime_Y_m_d "2024-02-29" = Some (Date 2024 2 29) ∧
  strptime_Y_m_d "2023-02-29" = None ∧
  strptime_Y_m_d "2024-2-9" = Some (Date 2024 2 9) ∧
  strptime_Y_m_d "2024-02- 9" = Some (Date 2024 2 9) ∧
  strptime_Y_m_d "2024-13-01" = None ∧
  strptime_Y_m_d "24-01-01" = None ∧
  strptime_Y_m_d "2024/01/01" = None ∧
  strptime_Y_m_d "2024-01-011" = None ∧
  strptime_Y_m_d "0000-01-01" = None.
Proof. repeat split. Qed.

Example csv_filename_examples :
  csv_filename "my stocks" = "my_stocks.csv" ∧
  csv_filename "tech.csv" = "tech.csv" ∧
  csv_filename "a b.csv" = "a_b.csv" ∧
  csv_filename "report.CSV" = "report.CSV.csv".
Proof. repeat split. Qed.

Example main_menu_choice_example :
  main_menu_choice ["abc"; "7"; " 2 "; "1"] Sample.empty_world =
  Ret (2%Z, ["1"])
    (World [ main_menu_prompt; "Invalid input, please try again.";
             main_menu_prompt; "Invalid input, please choose between 1 and 4";
             main_menu_prompt ] ∅ []).
Proof. reflexivity. Qed.

Example exit_menu_examples :
  exit_menu ["maybe"; " Y "; "n"] Sample.empty_world =
    Raise (SystemExit exiting) (asked 1 Sample.empty_world) ∧
  exit_menu ["yes"; "N"; "y"] Sample.empty_world =
    Ret ((), ["y"]) (asked 1 Sample.empty_world) ∧
  exit_menu ["no"] Sample.empty_world = Raise EOFError (asked 1 Sample.empty_world).
Proof. repeat split. Qed.

Example cleaned_titles_example :
  cleaned_titles summary_statistics_titles =
  [ "company"; "date_range"; "total_trading_days"; "opening_price"; "closing_price";
    "average_closing_price"; "highest_closing_price"; "highest_intraday_price";
    "lowest_closing_price"; "lowest_intraday_price"; "daily_price_volatility";
    "annualized_price_volatility"; "total_return_(%)"; "average_daily_volume" ].
Proof. reflexivity. Qed.

Example stock_filename_example :
  stock_filename "AAPL (Apple Inc.)" "2024-01-02 to 2024-01-04" = Inputs.aapl_file.
Proof. reflexivity. Qed.

(** Saving the same record a second time leaves the file of the record as
    the first save wrote it. *)
Example save_one_twice :
  let w1 := saved_one Inputs.aapl_file
              [cleaned_titles summary_statistics_titles; Inputs.aapl_row]
              Sample.empty_world in
  save_one_stock_to_csv Sample.aapl summary_statistics_titles Sample.empty_world =
    Ret () w1 ∧
  save_one_stock_to_csv Sample.aapl summary_statistics_titles w1 =
    Ret () (print (already_saved "AAPL (Apple Inc.)" "2024-01-02 to 2024-01-04"
                     Inputs.aapl_file) w1).
Proof.
  split.
  - apply (save_one_new_file Sample.aapl "AAPL (Apple Inc.)"
             "2024-01-02 to 2024-01-04" Sample.empty_world); reflexivity.
  - apply (save_one_duplicate Sample.aapl "AAPL (Apple Inc.)" "2024-01-02 to 2024-01-04"
             _ eq_refl eq_refl eq_refl
             [cleaned_titles summary_statistics_titles; Inputs.aapl_row]).
    + reflexivity.
    + exists (reader_row (cleaned_titles summary_statistics_titles) Inputs.aapl_row).
      split; [by apply list_elem_of_singleton | reflexivity].
Qed.

(** *** How calls end *)

Lemma post_call {A B} (o : outcome A) (k : A → world → outcome B)
    (Q1 : A → world → Prop) (E1 : exn → world → Prop)
    (Q : B → world → Prop) (E : exn → world → Prop) :
  post Q1 E1 o → (∀ e w, E1 e w → E e w) → (∀ a w, Q1 a w → post Q E (k a w)) →
  post Q E (obind o k).
Proof. destruct o as [a w | e w]; simpl; auto. Qed.

Lemma post_weaken {A} (o : outcome A) (Q Q' : A → world → Prop)
    (E E' : exn → world → Prop) :
  post Q E o → (∀ a w, Q a w → Q' a w) → (∀ e w, E e w → E' e w) → post Q' E' o.
Proof. destruct o as [a w | e w]; simpl; auto. Qed.

Lemma files_print_all (texts : list string) (w : world) :
  files (print_all texts w) = files w.
Proof.
  unfold print_all. revert w. induction texts as [|t texts IH]; intros w; [done |].
  simpl. by rewrite IH.
Qed.

Lemma files_asked (n : nat) (w : world) : files (asked n w) = files w.
Proof. unfold asked. by rewrite files_printed. Qed.

(** A menu prompt returns a number in its range, has read at least one
    line, and can only stop on the end of the input; it leaves the files. *)
Lemma choice_loop_post (prompt range_text value_text : string) (lo hi : Z)
    (stdin : list string) (w : world) :
  post (λ '(choice, rest) w',
          (lo ≤ choice ≤ hi)%Z ∧ (length rest < length stdin)%nat ∧
          files w' = files w)
       (λ e w', e = EOFError ∧ files w' = files w)
       (choice_loop prompt range_text value_text lo hi stdin w).
Proof.
  revert w. induction stdin as [|line stdin IH]; intros w; [done |].
  cbn [choice_loop].
  destruct (py_int (strip line)) as [n|].
  - destruct ((lo <=? n)%Z && (n <=? hi)%Z) eqn:Hrange.
    + apply andb_true_iff in Hrange as [?%Z.leb_le ?%Z.leb_le]. simpl. split; [lia |].
      split; [lia | done].
    + eapply post_weaken; [apply IH | |].
      * intros [choice rest] w' (? & ? & ->). simpl. split; [done |]. split; [lia | done].
      * by intros e w' [-> ->].
  - eapply post_weaken; [apply IH | |].
    + intros [choice rest] w' (? & ? & ->). simpl. split; [done |]. split; [lia | done].
    + by intros e w' [-> ->].
Qed.

(** [exit_menu] returns after at least one line, or stops on the end of
    the input or with the farewell of [sys.exit]; it leaves the files. *)
Lemma exit_menu_post (stdin : list string) (w : world) :
  post (λ '(_, rest) w', (length rest < length stdin)%nat ∧ files w' = files w)
       (λ e w', (e = EOFError ∨ e = SystemExit exiting) ∧ files w' = files w)
       (exit_menu stdin w).
Proof.
  destruct (first_decided stdin) as [Hall | (pre & line & rest & -> & Hpre & Hline)].
  { rewrite exit_menu_eof by done. simpl. split; [by left | apply files_asked]. }
  destruct (decided_cases line Hline) as [Hy | Hn].
  - rewrite exit_menu_yes by done. simpl. split; [by right | apply files_asked].
  - rewrite exit_menu_no by done. simpl. rewrite length_app. simpl.
    split; [lia | apply files_asked].
Qed.

(** *** Printing a record *)

Lemma print_statistics_indices (stats : dict) (indices : list nat) (w : world) :
  dom stats = stat_keys → Forall (λ i, (i < 14)%nat) indices →
  print_statistics summary_statistics_titles stats indices w =
  Ret () (print_all ((λ i, default "" (summary_statistics_titles !! i) +:+
                          default "" (stats !! stat_key i)) <$> indices) w).
Proof.
  intros Hdom Hall. revert w.
  induction Hall as [|i indices Hi Hall IH]; intros w; [done |].
  cbn [print_statistics].
  destruct (lookup_lt_is_Some_2 summary_statistics_titles i) as [title Htitle];
    [simpl; lia |].
  destruct (record_lookup stats i Hdom Hi) as [v Hv].
  unfold getitem. rewrite Htitle, Hv. cbn [lift obind]. rewrite IH.
  by rewrite fmap_cons, Htitle, Hv.
Qed.

Lemma record_size (stats : dict) : dom stats = stat_keys → size stats = 14%nat.
Proof. intros Hdom. by rewrite <- size_dom, Hdom, stat_keys_size. Qed.

(** The statistics of a record are printed as its fourteen lines. *)
Lemma print_statistics_lines (stats : dict) (w : world) :
  dom stats = stat_keys →
  print_statistics summary_statistics_titles stats (seq 0 (size stats)) w =
  Ret () (print_all (stat_lines summary_statistics_titles stats) w).
Proof.
  intros Hdom. rewrite (record_size stats Hdom).
  rewrite print_statistics_indices; [| done |].
  - reflexivity.
  - apply Forall_forall. intros i Hi%elem_of_seq. lia.
Qed.

(** *** Analyses *)

Lemma already_analyzed_true (stocks : list dict) (summary_statistics : dict) :
  already_analyzed stocks summary_statistics = inr true →
  ∃ stock, stock ∈ stocks ∧ record_key stock = record_key summary_statistics.
Proof.
  unfold record_key. induction stocks as [|d stocks IH]; simpl; [done |].
  unfold getitem.
  destruct (d !! "stat1") as [a|] eqn:Ha; [| done].
  destruct (summary_statistics !! "stat1") as [b|] eqn:Hb; [| done].
  destruct (decide (a = b)) as [-> | Hab].
  - destruct (d !! "stat2") as [a2|] eqn:Ha2; [| done].
    destruct (summary_statistics !! "stat2") as [b2|] eqn:Hb2; [| done].
    destruct (decide (a2 = b2)) as [-> | Hab2].
    + intros _. exists d. split; [by left |]. by rewrite Ha, Ha2.
    + intros (stock & Hin & Hkey)%IH. exists stock. split; [by right | done].
  - intros (stock & Hin & Hkey)%IH. exists stock. split; [by right | done].
Qed.

Lemma already_analyzed_total (stocks : list dict) (summary_statistics : dict) :
  keyed stocks →
  is_Some (summary_statistics !! "stat1") → is_Some (summary_statistics !! "stat2") →
  ∃ found, already_analyzed stocks summary_statistics = inr found.
Proof.
  intros Hkeyed [b Hb] [b2 Hb2].
  induction Hkeyed as [|d stocks [[a Ha] [a2 Ha2]] Hkeyed IH]; simpl; [by exists false |].
  unfold getitem. rewrite Ha, Hb, Ha2, Hb2.
  destruct (decide (a = b)); [| done].
  destruct (decide (a2 = b2)); [by exists true | done].
Qed.

Section analyses.
Context `{Env}.

Lemma analyzed_dom (r : dict) : analyzed r → dom r = stat_keys.
Proof. intros (tk & s & e & Hr). by apply (stock_summary_statistics_dom tk s e). Qed.

Lemma analyzed_keyed (stocks : list dict) : Forall analyzed stocks → keyed stocks.
Proof.
  intros Hall. eapply Forall_impl; [exact Hall |]. intros r Hr%analyzed_dom.
  split; [apply (record_lookup r 0 Hr) | apply (record_lookup r 1 Hr)]; lia.
Qed.

(** Lines 200-220 never raise on computed records: the record is returned,
    the list is as it was or has the record at its end, in both cases a
    record of the list has the key of the record, and the output is the
    report of the record. *)
Lemma record_stock_post (stocks : list dict) (tk : ticker_info)
    (start_date end_date : date) (summary_statistics : dict) (w : world) :
  Forall analyzed stocks → analyzed summary_statistics →
  post (λ '(r, stocks') w',
          r = summary_statistics ∧
          (stocks' = stocks ∨ stocks' = stocks ++ [summary_statistics]) ∧
          (∃ stock, stock ∈ stocks' ∧ record_key stock = record_key r) ∧
          files w' = files w)
       (λ _ _, False)
       (record_stock stocks summary_statistics_titles tk start_date end_date
          summary_statistics w).
Proof.
  intros Hstocks Hnew. pose proof (analyzed_dom _ Hnew) as Hdom.
  unfold record_stock. rewrite print_statistics_lines by done. cbn [obind].
  destruct (already_analyzed_total stocks summary_statistics) as [found Hfound];
    [by apply analyzed_keyed | apply (record_lookup _ 0 Hdom); lia
     | apply (record_lookup _ 1 Hdom); lia |].
  rewrite Hfound. cbn [lift obind]. destruct found; cbn [post].
  - split; [done |]. split; [by left |]. split; [by apply already_analyzed_true |].
    by rewrite files_print_all.
  - split; [done |]. split; [by right |]. split; [| by rewrite files_print_all].
    exists summary_statistics. split; [| done]. apply elem_of_app. right. by left.
Qed.

(** [analyze_stock] on a list of computed records: it returns a computed
    record after at least three lines, with the list as it was or with the
    record at its end, or stops on the end of the input; it never touches a
    file. *)
Lemma analyze_stock_post (stocks : list dict) (n : nat) :
  Forall analyzed stocks →
  ∀ (stdin : list string) (w : world), (length stdin ≤ n)%nat →
  post (λ '((r, stocks'), rest) w',
          analyzed r ∧ (stocks' = stocks ∨ stocks' = stocks ++ [r]) ∧
          (∃ stock, stock ∈ stocks' ∧ record_key stock = record_key r) ∧
          (length rest + 3 ≤ length stdin)%nat ∧ files w' = files w)
       (λ e w', e = EOFError ∧ files w' = files w)
       (analyze_stock stocks summary_statistics_titles stdin w).
Proof.
  intros Hstocks. induction n as [|n IH]; intros stdin w Hlen.
  { destruct stdin; [done | simpl in Hlen; lia]. }
  assert (∀ stdin' w0, (length stdin' < length stdin)%nat → files w0 = files w →
    post (λ '((r, stocks'), rest) w',
            analyzed r ∧ (stocks' = stocks ∨ stocks' = stocks ++ [r]) ∧
            (∃ stock, stock ∈ stocks' ∧ record_key stock = record_key r) ∧
            (length rest + 3 ≤ length stdin)%nat ∧ files w' = files w)
         (λ e w', e = EOFError ∧ files w' = files w)
         (analyze_stock stocks summary_statistics_titles stdin' w0)) as Hagain.
  { intros stdin' w0 Hshort Hfiles. eapply post_weaken; [apply IH; lia | |].
    - intros [[r stocks'] rest] w' (? & ? & ? & ? & ->).
      split; [done |]. split; [done |]. split; [done |]. split; [lia | done].
    - intros e w' [-> ->]. done. }
  destruct stdin as [|line1 stdin1]; [done |]. cbn [analyze_stock].
  unfold validate_ticker. destruct (longName _) as [name|]; [| apply Hagain; simpl; [lia | done]].
  destruct stdin1 as [|line2 stdin2]; [done |].
  unfold validate_date at 1.
  destruct (strptime_Y_m_d (strip line2)) as [start_date|];
    [| apply Hagain; simpl; [lia | done]].
  destruct stdin2 as [|line3 stdin3]; [done |].
  unfold validate_date.
  destruct (strptime_Y_m_d (strip line3)) as [end_date|];
    [| apply Hagain; simpl; [lia | done]].
  destruct (date_ge start_date end_date); [apply Hagain; simpl; [lia | done] |].
  destruct (date_gt start_date today || date_gt end_date today);
    [apply Hagain; simpl; [lia | done] |].
  destruct (stock_summary_statistics _ start_date end_date) as [ss|] eqn:Hss;
    [| apply Hagain; simpl; [lia | done]].
  eapply post_call.
  - apply record_stock_post; [done |]. by eexists _, _, _.
  - by intros e w' [].
  - intros [r stocks'] w' (-> & Hlist & Hkey & Hfiles). simpl.
    split; [by eexists _, _, _ |]. split; [done |]. split; [done |]. split; [lia | done].
Qed.

(** [list_stocks] on computed records prints the heading and, for each
    record in the order of the list, its fourteen lines and the separator. *)
Lemma list_stocks_loop_lines (stocks : list dict) (w : world) :
  Forall analyzed stocks →
  list_stocks_loop stocks summary_statistics_titles w =
  Ret () (print_all (stock ← stocks;
                     stat_lines summary_statistics_titles stock ++ ["--" +:+ nl]) w).
Proof.
  intros Hstocks. revert w. induction Hstocks as [|stock stocks Hstock _ IH]; intros w;
    [done |].
  cbn [list_stocks_loop]. rewrite print_statistics_lines by by apply analyzed_dom.
  cbn [obind]. rewrite IH. f_equal.
Qed.

End analyses.

(** *** Files *)

Lemma files_extended_same (w w' : world) : files w' = files w → files_extended w w'.
Proof. intros Hsame name old Hold. exists []. by rewrite Hsame, app_nil_r. Qed.

Lemma files_extended_trans (w1 w2 w3 : world) :
  files_extended w1 w2 → files_extended w2 w3 → files_extended w1 w3.
Proof.
  intros H12 H23 name old Hold.
  destruct (H12 name old Hold) as [added1 H2].
  destruct (H23 name _ H2) as [added2 H3].
  exists (added1 ++ added2). by rewrite H3, <- app_assoc.
Qed.

Lemma files_extended_write (w w' : world) (name : string) (content added : csv_file) :
  files w' = <[name := content]> (files w) →
  (∀ old, files w !! name = Some old → content = old ++ added) →
  files_extended w w'.
Proof.
  intros Hfiles Hcontent other old Hold. rewrite Hfiles.
  destruct (decide (name = other)) as [<- | Hne].
  - exists added. rewrite lookup_insert_eq. by rewrite (Hcontent old Hold).
  - exists []. by rewrite lookup_insert_ne, app_nil_r.
Qed.

Lemma headed_same (w w' : world) : files w' = files w → headed w → headed w'.
Proof. intros Hsame Hw name content. rewrite Hsame. apply Hw. Qed.

Lemma headed_write (w w' : world) (name : string) (header : list string)
    (records : csv_file) :
  files w' = <[name := header :: records]> (files w) → "date_range" ∈ header →
  headed w → headed w'.
Proof.
  intros Hfiles Hheader Hw other content. rewrite Hfiles.
  destruct (decide (name = other)) as [<- | Hne].
  - rewrite lookup_insert_eq. intros [= <-]. by exists header, records.
  - rewrite lookup_insert_ne by done. apply Hw.
Qed.

Lemma cleaned_titles_have_date_range :
  "date_range" ∈ cleaned_titles summary_statistics_titles.
Proof. apply list_elem_of_lookup. exists 1%nat. apply cleaned_titles_date_range. Qed.

(** *** Saving all records *)

Lemma blank_dec (line : string) : Decision (blank line).
Proof. unfold blank. apply _. Defined.

Lemma first_nonblank (stdin : list string) :
  Forall blank stdin ∨
  ∃ pre line rest, stdin = pre ++ line :: rest ∧ Forall blank pre ∧ ¬ blank line.
Proof.
  induction stdin as [|l stdin IH]; [by left |].
  destruct (blank_dec l) as [Hl | Hl].
  - destruct IH as [IH | (pre & line & rest & -> & Hpre & Hline)].
    + left. by constructor.
    + right. exists (l :: pre), line, rest. split; [done |]. split; [by constructor | done].
  - right. by exists [], l, stdin.
Qed.

(** The rows of computed records are built without an error and are
    written as the values of the records. *)
Lemma rows_of_records (stocks : list dict) :
  Forall (λ d : dict, dom d = stat_keys) stocks →
  ∃ rows,
    rows_of stocks (cleaned_titles summary_statistics_titles) = inr rows ∧
    writerow (cleaned_titles summary_statistics_titles) <$> rows = stat_values <$> stocks.
Proof.
  induction 1 as [|stock stocks Hstock _ (rows & Hrows & Hwrite)]; [by exists [] |].
  destruct (new_row_of_record stock Hstock) as (row & Hrow & Hwrow & _).
  exists (row :: rows). cbn [rows_of]. rewrite Hrow, Hrows.
  split; [done |]. by rewrite !fmap_cons, Hwrow, Hwrite.
Qed.

Lemma saved_all_files (titles : list string) (name : string) (rows : list dict)
    (w : world) :
  files (saved_all titles name rows w) =
  <[name := match files w !! name with
            | Some old => old ++ (writerow (cleaned_titles titles) <$> rows)
            | None => cleaned_titles titles :: (writerow (cleaned_titles titles) <$> rows)
            end]> (files w).
Proof. reflexivity. Qed.

Lemma save_all_to_csv_post (stocks : list dict) (stdin : list string) (w : world) :
  Forall (λ d : dict, dom d = stat_keys) stocks →
  post (λ '(_, rest) w',
          (length rest < length stdin)%nat ∧ files_extended w w' ∧ (headed w → headed w'))
       (λ e w', e = EOFError ∧ files w' = files w)
       (save_all_to_csv stocks summary_statistics_titles stdin w).
Proof.
  intros Hstocks.
  destruct (first_nonblank stdin) as [Hall | (pre & line & rest & -> & Hpre & Hline)].
  { destruct (save_all_to_csv_eof stocks summary_statistics_titles stdin w Hall)
      as (w' & -> & Hfiles). done. }
  destruct (rows_of_records stocks Hstocks) as (rows & Hrows & _).
  rewrite (save_all_to_csv_run _ _ _ _ _ rows) by done. cbn [post].
  rewrite length_app. simpl. split; [lia |].
  set (w0 := printed (S (length pre)) filename_prompt w).
  assert (files w0 = files w) as Hw0 by apply files_printed.
  pose proof (saved_all_files summary_statistics_titles (csv_filename (strip line))
                rows w0) as Hfiles.
  rewrite Hw0 in Hfiles. split.
  - eapply files_extended_write; [exact Hfiles |]. intros old Hold. by rewrite Hold.
  - intros Hw.
    destruct (files w !! csv_filename (strip line)) as [old|] eqn:Hold.
    + destruct (Hw _ _ Hold) as (header & records & -> & Hheader).
      by eapply headed_write.
    + eapply headed_write; [exact Hfiles | apply cleaned_titles_have_date_range | done].
Qed.

(** *** Saving one record *)

Lemma find_duplicate_raises (rows : list (gmap string (option string)))
    (new_row : dict) (e : exn) :
  is_Some (new_row !! "date_range") →
  find_duplicate rows new_row = inl e →
  e = KeyError "date_range" ∧ ∃ row, row ∈ rows ∧ row !! "date_range" = None.
Proof.
  intros [new Hnew]. induction rows as [|row rows IH]; [done |].
  cbn [find_duplicate]. unfold getitem. rewrite Hnew.
  destruct (row !! "date_range") as [old|] eqn:Hold.
  - destruct (decide (old = Some new)); [done |].
    intros [-> (row' & Hin & Hrow')]%IH. split; [done |].
    exists row'. split; [by right | done].
  - intros [= <-]. split; [done |]. exists row. split; [by left | done].
Qed.

Lemma DictReader_missing_field (content : csv_file)
    (row : gmap string (option string)) (k : string) :
  row ∈ DictReader content → row !! k = None →
  ∃ header records, content = header :: records ∧ k ∉ header.
Proof.
  destruct content as [|header records]; simpl; [by intros ?%elem_of_nil |].
  intros (r & -> & _)%list_elem_of_fmap Hfield.
  exists header, records. split; [done |].
  intros Hin%(reader_row_fields header r). rewrite Hfield in Hin. by destruct Hin.
Qed.

Lemma save_one_stock_to_csv_post (sum_stats : dict) (w : world) :
  dom sum_stats = stat_keys →
  post (λ _ w', files_extended w w' ∧ (headed w → headed w'))
       (λ e w', e = KeyError "date_range" ∧ ¬ headed w ∧ files w' = files w)
       (save_one_stock_to_csv sum_stats summary_statistics_titles w).
Proof.
  intros Hdom.
  destruct (record_lookup sum_stats 0 Hdom) as [stat1 Hstat1]; [lia |].
  destruct (record_lookup sum_stats 1 Hdom) as [stat2 Hstat2]; [lia |].
  destruct (save_one_unfold sum_stats stat1 stat2 w Hdom Hstat1 Hstat2)
    as (new_row & Hwrite & Hkey & ->). cbv zeta.
  destruct (files w !! stock_filename stat1 stat2) as [content|] eqn:Hfile.
  - destruct (find_duplicate (DictReader content) new_row) as [e | [|]] eqn:Hfind;
      cbn [post].
    + destruct (find_duplicate_raises _ _ _ (mk_is_Some _ _ Hkey) Hfind)
        as [-> (row & Hrow & Hfield)].
      split; [done |]. split; [| done]. intros Hw.
      destruct (Hw _ _ Hfile) as (header & records & -> & Hheader).
      destruct (DictReader_missing_field _ _ _ Hrow Hfield) as (h & r & [= <- <-] & Hno).
      done.
    + split; [by apply files_extended_same | by apply headed_same].
    + rewrite bool_decide_true by done. cbn [default]. split.
      * eapply files_extended_write; [reflexivity |].
        intros old Hold. rewrite Hfile in Hold. injection Hold as <-.
        by rewrite app_nil_l.
      * intros Hw. destruct (Hw _ _ Hfile) as (header & records & -> & Hheader).
        by eapply headed_write.
  - cbn [post]. rewrite bool_decide_false by (by intros [? ?]). cbn [default]. split.
    + eapply files_extended_write; [reflexivity |]. intros old Hold.
      rewrite Hfile in Hold. done.
    + intros Hw. eapply headed_write;
        [reflexivity | apply cleaned_titles_have_date_range | done].
  Unshelve. exact [].
Qed.

(** *** Splitting the date range *)

Lemma rev_app_rev_app (t cur acc : string) :
  String.rev_app (String.rev_app t cur) acc = String.rev_app cur (t +:+ acc).
Proof.
  revert cur acc. induction t as [|c t IH]; intros cur acc; [done |].
  cbn [String.rev_app]. by rewrite IH.
Qed.

Lemma rev_rev_app (t : string) : String.rev (String.rev_app t "") = t.
Proof.
  unfold String.rev. rewrite rev_app_rev_app. cbn [String.rev_app].
  apply string_app_nil_r.
Qed.

Lemma contains_char_app (c : ascii) (a b : string) :
  contains_char c (a +:+ b) = contains_char c a || contains_char c b.
Proof.
  induction a as [|x a IH]; [done |].
  rewrite string_app_cons. cbn [contains_char]. by rewrite IH, orb_assoc.
Qed.

Lemma contains_char_rev_app (c : ascii) (a b : string) :
  contains_char c (String.rev_app a b) = contains_char c a || contains_char c b.
Proof.
  revert b. induction a as [|x a IH]; intros b; [done |].
  cbn [String.rev_app contains_char]. rewrite IH. cbn [contains_char].
  destruct (Ascii.eqb c x), (contains_char c a), (contains_char c b); done.
Qed.

(** A text without a space before the separator [" to "] is read as one
    piece. *)
Lemma split_go_to_piece (s rest cur : string) :
  contains_char " " s = false →
  split_go " to " 0 cur (s +:+ rest) = split_go " to " 0 (String.rev_app s cur) rest.
Proof.
  revert cur. induction s as [|c s IH]; intros cur Hs; [done |].
  cbn [contains_char] in Hs. apply orb_false_iff in Hs as [Hc Hs].
  rewrite string_app_cons. cbn [split_go startswith String.rev_app].
  rewrite Ascii.eqb_sym, Hc. cbn [andb]. by apply IH.
Qed.

Lemma startswith_nil (s : string) : startswith s "" = true.
Proof. by destruct s. Qed.

Lemma split_go_to_separator (cur t : string) :
  split_go " to " 0 cur (" to " +:+ t) = String.rev cur :: split_go " to " 0 "" t.
Proof.
  rewrite !string_app_cons, string_app_nil_l. cbn [split_go startswith].
  rewrite startswith_nil. reflexivity.
Qed.

Lemma split_to (a b : string) :
  contains_char " " a = false → contains_char " " b = false →
  split " to " (a +:+ " to " +:+ b) = [a; b].
Proof.
  intros Ha Hb. unfold split. rewrite split_go_to_piece by done.
  rewrite split_go_to_separator, rev_rev_app. f_equal.
  rewrite <- (string_app_nil_r b) at 1. rewrite split_go_to_piece by done.
  cbn [split_go]. by rewrite rev_rev_app.
Qed.

Lemma digit_char_not_space (n : Z) : Ascii.eqb " " (digit_char n) = false.
Proof.
  unfold digit_char.
  assert (0 ≤ n mod 10 < 10)%Z as Hn by (apply Z.mod_pos_bound; lia).
  assert (n mod 10 = 0 ∨ n mod 10 = 1 ∨ n mod 10 = 2 ∨ n mod 10 = 3 ∨ n mod 10 = 4 ∨
          n mod 10 = 5 ∨ n mod 10 = 6 ∨ n mod 10 = 7 ∨ n mod 10 = 8 ∨ n mod 10 = 9)%Z
    as Hcases by lia.
  destruct Hcases as [-> | [-> | [-> | [-> | [-> | [-> | [-> | [-> | [-> | ->]]]]]]]]];
    reflexivity.
Qed.

(** The text of a date has no space. *)
Lemma isoformat_no_space (d : date) : contains_char " " (isoformat d) = false.
Proof.
  unfold isoformat, pad4, pad2.
  rewrite !string_app_cons, !string_app_nil_l. cbn [contains_char].
  rewrite !digit_char_not_space. reflexivity.
Qed.

(** The first piece of a text split at the spaces has no space. *)
Lemma split_space_head (s cur : string) :
  contains_char " " cur = false →
  ∃ piece pieces, split_go " " 0 cur s = piece :: pieces ∧
                  contains_char " " piece = false.
Proof.
  revert cur. induction s as [|c s IH]; intros cur Hcur.
  - exists (String.rev cur), []. split; [done |].
    unfold String.rev. by rewrite contains_char_rev_app, Hcur.
  - cbn [split_go startswith]. rewrite startswith_nil, andb_true_r.
    destruct (Ascii.eqb c " ") eqn:Hc.
    + eexists _, _. split; [done |].
      unfold String.rev. by rewrite contains_char_rev_app, Hcur.
    + apply IH. cbn [contains_char]. by rewrite Ascii.eqb_sym, Hc.
Qed.

(** *** Graphs *)

Lemma post_and {A} (o : outcome A) (Q1 Q2 : A → world → Prop)
    (E1 E2 : exn → world → Prop) :
  post Q1 E1 o → post Q2 E2 o →
  post (λ a w, Q1 a w ∧ Q2 a w) (λ e w, E1 e w ∧ E2 e w) o.
Proof. destruct o as [a w | e w]; simpl; auto. Qed.

Lemma figures_printed (n : nat) (text : string) (w : world) :
  figures (printed n text w) = figures w.
Proof. induction n as [|n IH]; [done |]. by rewrite printed_S. Qed.

Lemma figures_reject (prompt range_text value_text : string) (pre : list string)
    (w : world) :
  figures (foldl (reject prompt range_text value_text) w pre) = figures w.
Proof.
  revert w. induction pre as [|p pre IH]; intros w; [done |]. simpl. by rewrite IH.
Qed.

(** A menu prompt and [exit_menu] show no figure. *)
Lemma choice_loop_figures (prompt range_text value_text : string) (lo hi : Z)
    (stdin : list string) (w : world) :
  post (λ _ w', figures w' = figures w) (λ _ w', figures w' = figures w)
       (choice_loop prompt range_text value_text lo hi stdin w).
Proof.
  destruct (first_choice lo hi stdin)
    as [Hall | (pre & line & rest & n & -> & Hpre & Hline)].
  - rewrite choice_loop_eof by done. simpl. apply figures_reject.
  - rewrite (choice_loop_returns _ _ _ _ _ _ _ _ n) by done. simpl.
    apply figures_reject.
Qed.

Lemma exit_menu_figures (stdin : list string) (w : world) :
  post (λ _ w', figures w' = figures w) (λ _ w', figures w' = figures w)
       (exit_menu stdin w).
Proof.
  destruct (first_decided stdin) as [Hall | (pre & line & rest & -> & Hpre & Hline)].
  { rewrite exit_menu_eof by done. simpl. unfold asked. by rewrite figures_printed. }
  destruct (decided_cases line Hline) as [Hy | Hn].
  - rewrite exit_menu_yes by done. simpl. unfold asked. by rewrite figures_printed.
  - rewrite exit_menu_no by done. simpl. unfold asked. by rewrite figures_printed.
Qed.

Lemma print_choices_keyed (stocks : list dict) (i : nat) (w : world) :
  keyed stocks →
  ∃ w', print_choices stocks i w = Ret () w' ∧
        files w' = files w ∧ figures w' = figures w.
Proof.
  intros Hkeyed. revert i w.
  induction Hkeyed as [|d stocks [[a Ha] [a2 Ha2]] _ IH]; intros i w; [by exists w |].
  cbn [print_choices]. unfold getitem. rewrite Ha, Ha2. cbn [lift obind].
  destruct (IH (S i) (print (pretty (i + 1)%nat +:+ ". " +:+ a +:+ " ~ " +:+ a2) w))
    as (w' & -> & Hfiles & Hfigures).
  by exists w'.
Qed.

(** The loop that asks for the number of a stock: a number it leaves with
    is the number of a record of the list. *)
Lemma stock_number_loop_post (fuel : nat) (stocks : list dict) :
  ∀ (stdin : list string) (w : world),
  post (λ '(r, rest) w',
          (length rest < length stdin)%nat ∧
          files w' = files w ∧ figures w' = figures w ∧
          match r with
          | inl _ => True
          | inr stock_number => (1 ≤ stock_number ≤ Z.of_nat (length stocks))%Z
          end)
       (λ e w', (e = EOFError ∨ e = SystemExit exiting) ∧
                files w' = files w ∧ figures w' = figures w)
       (stock_number_loop fuel stocks stdin w).
Proof.
  induction fuel as [|fuel IH]; intros stdin w.
  { simpl. split; [by left | done]. }
  destruct stdin as [|line stdin]; [simpl; split; [by left | done] |].
  assert (∀ stdin' w0, (length stdin' ≤ length stdin)%nat →
            files w0 = files w → figures w0 = figures w →
    post (λ '(r, rest) w',
            (length rest < length (line :: stdin))%nat ∧
            files w' = files w ∧ figures w' = figures w ∧
            match r with
            | inl _ => True
            | inr stock_number => (1 ≤ stock_number ≤ Z.of_nat (length stocks))%Z
            end)
         (λ e w', (e = EOFError ∨ e = SystemExit exiting) ∧
                  files w' = files w ∧ figures w' = figures w)
         (stock_number_loop fuel stocks stdin' w0)) as Hagain.
  { intros stdin' w0 Hshort Hfiles Hfigures. eapply post_weaken; [apply IH | |].
    - intros [r rest] w' (? & Hf1 & Hf2 & ?). simpl. rewrite Hf1, Hf2.
      split; [lia | done].
    - intros e w' (? & Hf1 & Hf2). by rewrite Hf1, Hf2. }
  cbn [stock_number_loop].
  destruct (py_int (strip line)) as [n|]; [| by apply Hagain].
  destruct (negb _) eqn:Hrange; [by apply Hagain |].
  apply negb_false_iff, andb_true_iff in Hrange as [Hlo%Z.leb_le Hhi%Z.leb_le].
  destruct (n =? Z.of_nat (length stocks) + 1)%Z eqn:H1;
    [simpl; split; [lia | done] |].
  destruct (n =? Z.of_nat (length stocks) + 2)%Z eqn:H2;
    [simpl; split; [lia | done] |].
  destruct (n =? Z.of_nat (length stocks) + 3)%Z eqn:H3.
  - eapply post_call.
    + apply post_and; [apply exit_menu_post | apply exit_menu_figures].
    + intros e w' [[He Hfiles] Hfigures]. done.
    + intros [[] rest] w' [[Hlen Hfiles] Hfigures]. apply Hagain; [lia | done | done].
  - apply Z.eqb_neq in H1, H2, H3. simpl. split; [lia |]. split; [done |].
    split; [done | lia].
Qed.

Section graphs.
Context `{Env}.

(** The date range of a computed record is two dates with [" to "] between
    them. *)
Lemma analyzed_stat2 (r : dict) :
  analyzed r →
  ∃ first last, r !! "stat2" = Some (isoformat first +:+ " to " +:+ isoformat last).
Proof.
  intros (tk & start_date & end_date & Hr). unfold stock_summary_statistics in Hr.
  destruct (history (ticker tk) start_date end_date) as [|first rest]; [done |].
  destruct (last (first :: rest)) as [final|]; [| done].
  injection Hr as <-. exists (bar_date first), (bar_date final).
  unfold sum_stats_of. by simplify_map_eq.
Qed.

(** [view_stock_graph] on computed records never fails on the number it has
    read: it returns, or stops on the end of the input or through
    [exit_menu]; it leaves the files, and shows no figure or one figure whose
    title names a record of the list and ends with its date range. *)
Lemma view_stock_graph_post (stocks : list dict) (stdin : list string) (w : world) :
  Forall analyzed stocks →
  post (λ '(_, rest) w',
          (length rest < length stdin)%nat ∧ files w' = files w ∧
          (figures w' = figures w ∨
           ∃ stock stat1 stat2 graph_stat,
             stock ∈ stocks ∧ stock !! "stat1" = Some stat1 ∧
             stock !! "stat2" = Some stat2 ∧ (1 ≤ graph_stat ≤ 5)%Z ∧
             figures w' =
               figures w ++
               [stat1 +:+ " " +:+ graph_options graph_stat +:+ " from " +:+ stat2]))
       (λ e w', (e = EOFError ∨ e = SystemExit exiting) ∧
                files w' = files w ∧ figures w' = figures w)
       (view_stock_graph stocks stdin w).
Proof.
  intros Hstocks. unfold view_stock_graph.
  edestruct (print_choices_keyed stocks 0) as (w1 & -> & Hfiles1 & Hfigures1);
    [by apply analyzed_keyed |].
  cbn [obind]. eapply post_call; [apply stock_number_loop_post | |].
  { intros e w' (He & Hf1 & Hf2). simpl in Hf1, Hf2.
    rewrite Hf1, Hf2, Hfiles1, Hfigures1. done. }
  intros [[b | stock_number] rest] w2 (Hlen & Hfiles2 & Hfigures2 & Hrange);
    simpl in Hfiles2, Hfigures2; rewrite Hfiles1 in Hfiles2;
    rewrite Hfigures1 in Hfigures2.
  { simpl. split; [done |]. split; [done | by left]. }
  destruct (lookup_lt_is_Some_2 stocks (Z.to_nat (stock_number - 1))) as [stock Hstock];
    [lia |].
  rewrite Hstock.
  assert (analyzed stock) as Hanalyzed.
  { rewrite Forall_forall in Hstocks. apply Hstocks. by eapply list_elem_of_lookup_2. }
  pose proof (analyzed_dom _ Hanalyzed) as Hdom.
  destruct (record_lookup stock 0 Hdom) as [stat1 Hstat1]; [lia |].
  destruct (analyzed_stat2 stock Hanalyzed) as (first & final & Hstat2).
  change (stat_key 0) with "stat1" in Hstat1.
  unfold getitem. rewrite Hstat1, Hstat2. cbn [lift obind].
  rewrite split_to by apply isoformat_no_space.
  eapply post_call.
  - apply post_and; [apply choice_loop_post | apply choice_loop_figures].
  - intros e w' [[-> Hfiles] Hfigures]. simpl in Hfiles, Hfigures.
    split; [by left |]. by rewrite Hfiles, Hfigures.
  - intros [graph_stat rest'] w3 [(Hgraph & Hlen' & Hfiles) Hfigures].
    simpl in Hfiles, Hfigures. simpl. split; [lia |]. split; [by rewrite Hfiles |].
    right.
    exists stock, stat1, (isoformat first +:+ " to " +:+ isoformat final), graph_stat.
    split; [by eapply list_elem_of_lookup_2 |]. split; [done |]. split; [done |].
    split; [done |]. by rewrite Hfigures, Hfigures2.
Qed.

End graphs.

(** *** The menus *)

Lemma list_elem_of_snoc_prefix {A} (l new : list A) : l `prefix_of` l ++ new.
Proof. by exists new. Qed.

Section menus.
Context `{Env}.

Lemma list_stocks_post (stocks : list dict) (w : world) :
  Forall analyzed stocks →
  post (λ _ w', files w' = files w) (λ _ _, False)
       (list_stocks stocks summary_statistics_titles w).
Proof.
  intros Hstocks. unfold list_stocks. rewrite list_stocks_loop_lines by done.
  cbn [post]. by rewrite files_print_all.
Qed.

Lemma analyzed_snoc (stocks stocks' : list dict) (r : dict) :
  Forall analyzed stocks → analyzed r →
  stocks' = stocks ∨ stocks' = stocks ++ [r] → Forall analyzed stocks'.
Proof.
  intros Hstocks Hr [-> | ->]; [done |]. apply Forall_app. split; [done |].
  by constructor.
Qed.

Lemma main_step_post (c : config) (w : world) :
  session_inv c → post (round_post c w) (round_exn w) (main_step c w).
Proof.
  destruct c as [m stocks input]. intros [Hstocks Hmenu]. simpl in Hstocks, Hmenu.
  unfold main_step, round_post, round_exn. cbn [at_menu all_stocks stdin].
  destruct m as [|stock_data|].
  - eapply post_call; [apply choice_loop_post | |].
    { intros e w' [-> Hfiles]. split; [done | by left]. }
    intros [choice rest] w1 (Hrange & Hlen & Hfiles1). simpl in Hfiles1.
    destruct (choice =? 1)%Z.
    { eapply post_call; [by apply (analyze_stock_post stocks (length rest)) | |].
      - intros e w' [-> Hfiles]. simpl in Hfiles. split; [by rewrite Hfiles | by left].
      - intros [[r stocks'] rest'] w2 (Hr & Hlist & Hkey & Hlen' & Hfiles2).
        simpl in Hfiles2. cbn [post at_menu all_stocks stdin].
        split; [split; [by eapply analyzed_snoc | done] |].
        split; [lia |]. split; [apply files_extended_same; congruence |].
        split; [apply headed_same; congruence |].
        destruct Hlist as [-> | ->]; [done | apply list_elem_of_snoc_prefix]. }
    destruct (choice =? 2)%Z.
    { destruct stocks as [|stock stocks]; cbn [post at_menu all_stocks stdin].
      - split; [done |]. split; [done |].
        split; [by apply files_extended_same |]. split; [by apply headed_same | done].
      - split; [done |]. split; [done |].
        split; [by apply files_extended_same |]. split; [by apply headed_same | done]. }
    destruct (choice =? 3)%Z.
    { cbn [post at_menu all_stocks stdin]. split; [done |]. split; [done |].
      split; [by apply files_extended_same |]. split; [by apply headed_same | done]. }
    eapply post_call; [apply exit_menu_post | |].
    { intros e w' [He Hfiles]. simpl in Hfiles. split; [congruence |].
      destruct He as [-> | ->]; [by left | right; by left]. }
    intros [[] rest'] w2 [Hlen' Hfiles2]. simpl in Hfiles2.
    cbn [post at_menu all_stocks stdin]. split; [done |]. split; [lia |].
    split; [apply files_extended_same; congruence |].
    split; [apply headed_same; congruence | done].
  - destruct Hmenu as [Hdata Hkey].
    eapply post_call; [apply choice_loop_post | |].
    { intros e w' [-> Hfiles]. split; [done | by left]. }
    intros [choice rest] w1 (Hrange & Hlen & Hfiles1). simpl in Hfiles1.
    destruct (choice =? 1)%Z.
    { eapply post_call;
        [apply save_one_stock_to_csv_post; by apply analyzed_dom | |].
      - intros e w' (-> & Hno & Hfiles). split; [congruence |]. right. right.
        split; [done |]. intros Hw. apply Hno. by apply (headed_same w).
      - intros [] w2 [Hext Hheaded]. cbn [post at_menu all_stocks stdin].
        split; [done |]. split; [done |].
        split; [by eapply files_extended_trans; [apply files_extended_same |] |].
        split; [| done]. intros Hw. apply Hheaded. by apply (headed_same w). }
    destruct (choice =? 2)%Z.
    { eapply post_call; [by apply (analyze_stock_post stocks (length rest)) | |].
      - intros e w' [-> Hfiles]. simpl in Hfiles. split; [by rewrite Hfiles | by left].
      - intros [[r stocks'] rest'] w2 (Hr & Hlist & Hkey' & Hlen' & Hfiles2).
        simpl in Hfiles2. cbn [post at_menu all_stocks stdin].
        split; [split; [by eapply analyzed_snoc | done] |].
        split; [lia |]. split; [apply files_extended_same; congruence |].
        split; [apply headed_same; congruence |].
        destruct Hlist as [-> | ->]; [done | apply list_elem_of_snoc_prefix]. }
    destruct (choice =? 3)%Z.
    { cbn [post at_menu all_stocks stdin]. split; [done |]. split; [done |].
      split; [by apply files_extended_same |]. split; [by apply headed_same | done]. }
    eapply post_call; [apply exit_menu_post | |].
    { intros e w' [He Hfiles]. split; [congruence |].
      destruct He as [-> | ->]; [by left | right; by left]. }
    intros [[] rest'] w2 [Hlen' Hfiles2].
    cbn [post at_menu all_stocks stdin]. split; [done |]. split; [lia |].
    split; [apply files_extended_same; congruence |].
    split; [apply headed_same; congruence | done].
  - eapply post_call; [apply choice_loop_post | |].
    { intros e w' [-> Hfiles]. split; [done | by left]. }
    intros [choice rest] w1 (Hrange & Hlen & Hfiles1). simpl in Hfiles1.
    destruct (choice =? 1)%Z.
    { eapply post_call; [by apply list_stocks_post | by intros e w' [] |].
      intros [] w2 Hfiles2. cbn [post at_menu all_stocks stdin].
      split; [done |]. split; [done |].
      split; [apply files_extended_same; congruence |].
      split; [apply headed_same; congruence | done]. }
    destruct (choice =? 2)%Z.
    { eapply post_call.
      - apply save_all_to_csv_post. eapply Forall_impl; [exact Hstocks |].
        intros r. apply analyzed_dom.
      - intros e w' [-> Hfiles]. split; [congruence | by left].
      - intros [[] rest'] w2 (Hlen' & Hext & Hheaded).
        cbn [post at_menu all_stocks stdin]. split; [done |]. split; [lia |].
        split; [by eapply files_extended_trans; [apply files_extended_same |] |].
        split; [| done]. intros Hw. apply Hheaded. by apply (headed_same w). }
    destruct (choice =? 3)%Z.
    { eapply post_call; [by apply view_stock_graph_post | |].
      - intros e w' (He & Hfiles & _). split; [congruence |].
        destruct He as [-> | ->]; [by left | right; by left].
      - intros [to_main rest'] w2 (Hlen' & Hfiles2 & _).
        destruct to_main; cbn [post at_menu all_stocks stdin].
        + split; [done |]. split; [lia |].
          split; [apply files_extended_same; congruence |].
          split; [apply headed_same; congruence | done].
        + split; [done |]. split; [lia |].
          split; [apply files_extended_same; congruence |].
          split; [apply headed_same; congruence | done]. }
    destruct (choice =? 4)%Z.
    { cbn [post at_menu all_stocks stdin]. split; [done |]. split; [done |].
      split; [by apply files_extended_same |]. split; [by apply headed_same | done]. }
    eapply post_call; [apply exit_menu_post | |].
    { intros e w' [He Hfiles]. split; [congruence |].
      destruct He as [-> | ->]; [by left | right; by left]. }
    intros [[] rest'] w2 [Hlen' Hfiles2].
    cbn [post at_menu all_stocks stdin]. split; [done |]. split; [lia |].
    split; [apply files_extended_same; congruence |].
    split; [apply headed_same; congruence | done].
Qed.

End menus.

(** *** Sessions *)

Section sessions.
Context `{Env}.

Lemma round_post_trans (c1 c2 c3 : config) (w1 w2 w3 : world) (n : nat) :
  round_post c1 w1 c2 w2 →
  session_inv c3 ∧ (length (stdin c3) + n ≤ length (stdin c2))%nat ∧
  files_extended w2 w3 ∧ (headed w2 → headed w3) ∧
  all_stocks c2 `prefix_of` all_stocks c3 →
  session_inv c3 ∧ (length (stdin c3) + S n ≤ length (stdin c1))%nat ∧
  files_extended w1 w3 ∧ (headed w1 → headed w3) ∧
  all_stocks c1 `prefix_of` all_stocks c3.
Proof.
  intros (_ & Hlen1 & Hext1 & Hhead1 & Hpre1) (Hinv & Hlen2 & Hext2 & Hhead2 & Hpre2).
  split; [done |]. split; [lia |]. split; [by eapply files_extended_trans |].
  split; [by auto |]. by etrans.
Qed.

(** The rounds of the menus: what [main_step] keeps, round after round. *)
Lemma main_rounds_post (rounds : nat) :
  ∀ (c : config) (w : world), session_inv c →
  post (λ c' w',
          session_inv c' ∧ (length (stdin c') + rounds ≤ length (stdin c))%nat ∧
          files_extended w w' ∧ (headed w → headed w') ∧
          all_stocks c `prefix_of` all_stocks c')
       (λ e w',
          files_extended w w' ∧ (headed w → headed w') ∧
          (e = EOFError ∨ e = SystemExit exiting ∨
           (e = KeyError "date_range" ∧ ¬ headed w)))
       (main_rounds rounds c w).
Proof.
  induction rounds as [|rounds IH]; intros c w Hinv.
  { simpl. split; [done |]. split; [lia |]. split; [by apply files_extended_same |].
    done. }
  cbn [main_rounds]. eapply post_call; [by apply main_step_post | |].
  - intros e w' [Hfiles He]. split; [by apply files_extended_same |].
    split; [by apply headed_same | done].
  - intros c1 w1 Hround. pose proof Hround as (Hinv1 & _ & Hext1 & Hhead1 & _).
    eapply post_weaken; [by apply IH | |].
    + intros c2 w2 Hrest. by eapply round_post_trans.
    + intros e w2 (Hext2 & Hhead2 & He). split; [by eapply files_extended_trans |].
      split; [by auto |].
      destruct He as [-> | [-> | [-> Hno]]]; [by left | right; by left |].
      right. right. split; [done |]. intros Hw. by apply Hno, Hhead1.
Qed.

Lemma session_inv_start (stdin : list string) : session_inv (Config MainMenu [] stdin).
Proof. split; [by constructor | done]. Qed.

(** X1: the invariant of the menus holds in every configuration the script
    passes through: every record of [all_stocks] was computed by
    [stock_summary_statistics]; in the stock analysis menu so was the current
    record, and a record of the list has its ticker text and its date range; the
    stock access menu is only ever entered with a record in the list. *)
Theorem session_inv_reachable (c : config) : reachable c → session_inv c.
Proof.
  intros (rounds & stdin & w & w' & Hrun).
  pose proof (main_rounds_post rounds _ w (session_inv_start stdin)) as Hpost.
  unfold main in Hrun. rewrite Hrun in Hpost. by destruct Hpost.
Qed.


(** X3: every round of a menu reads at least one line: after [rounds] rounds at
    least [rounds] lines are gone, and on an input of fewer lines than that the
    script has ended. *)
Theorem main_reads_every_round (rounds : nat) (input : list string) (w : world) :
  (∀ c w', main rounds input w = Ret c w' →
           (length (stdin c) + rounds ≤ length input)%nat) ∧
  ((length input < rounds)%nat → ∃ e w', main rounds input w = Raise e w').
Proof.
  pose proof (main_rounds_post rounds _ w (session_inv_start input)) as Hpost.
  unfold main. destruct (main_rounds rounds _ w) as [c w' | e w'].
  - destruct Hpost as (_ & Hlen & _). simpl in Hlen. split.
    + by intros c0 w0 [= <- <-].
    + lia.
  - split; [done |]. intros _. by exists e, w'.
Qed.


End sessions.

(** X5: the list of records only grows at its end, whatever the list and the
    menu the rounds start from: no round removes, changes or reorders a record. *)
Theorem main_rounds_all_stocks `{Env} (rounds : nat) (c c' : config) (w w' : world) :
  main_rounds rounds c w = Ret c' w' → all_stocks c `prefix_of` all_stocks c'.
Proof.
  revert c w. induction rounds as [|rounds IH]; intros c w Hrun; simpl in Hrun.
  { by injection Hrun as <- <-. }
  destruct (main_step c w) as [c1 w1 | e w1] eqn:Hstep; [| done]. cbn [obind] in Hrun.
  etrans; [| by eapply IH].
  destruct (main_step_all_stocks _ _ _ _ Hstep) as [-> | (r & _ & -> & _)];
    [done | apply list_elem_of_snoc_prefix].
Qed.

(** *** Where a record comes from *)

Section provenance.
Context `{Env}.

(** X6: a record [analyze_stock] returns is the one of the last three lines it
    has read: the upper-cased ticker is known to the data source, the two lines
    after it are read as dates by [strptime], the start date is before the end
    date, neither date is after today, and the record is what
    [stock_summary_statistics] computes for them.  This holds for every list of
    records and every list of titles. *)
Theorem analyze_stock_returns (stocks : list dict) (titles stdin : list string)
    (w : world) (r : dict) (stocks' : list dict) (rest : list string) (w' : world) :
  analyze_stock stocks titles stdin w = Ret ((r, stocks'), rest) w' →
  ∃ pre line1 line2 line3 name start_date end_date,
    stdin = pre ++ line1 :: line2 :: line3 :: rest ∧
    longName (upper (strip line1)) = Some name ∧
    strptime_Y_m_d (strip line2) = Some start_date ∧
    strptime_Y_m_d (strip line3) = Some end_date ∧
    date_lt start_date end_date = true ∧
    date_gt start_date today = false ∧ date_gt end_date today = false ∧
    stock_summary_statistics (TickerInfo (upper (strip line1)) name)
      start_date end_date = Some r.
Proof.
  assert (length stdin ≤ length stdin)%nat as Hlen by done.
  revert Hlen. generalize (length stdin) at 2 as n. intros n. revert stdin w.
  induction n as [|n IH]; intros stdin w Hlen Hrun.
  { destruct stdin; [done | simpl in Hlen; lia]. }
  assert (∀ skipped stdin' w0,
            stdin = skipped ++ stdin' → skipped ≠ [] →
            analyze_stock stocks titles stdin' w0 = Ret ((r, stocks'), rest) w' →
            ∃ pre line1 line2 line3 name start_date end_date,
              stdin = pre ++ line1 :: line2 :: line3 :: rest ∧
              longName (upper (strip line1)) = Some name ∧
              strptime_Y_m_d (strip line2) = Some start_date ∧
              strptime_Y_m_d (strip line3) = Some end_date ∧
              date_lt start_date end_date = true ∧
              date_gt start_date today = false ∧ date_gt end_date today = false ∧
              stock_summary_statistics (TickerInfo (upper (strip line1)) name)
                start_date end_date = Some r) as Hagain.
  { intros skipped stdin' w0 -> Hskipped Hrun'.
    rewrite length_app in Hlen. destruct skipped as [|l skipped]; [done |].
    simpl in Hlen.
    apply IH in Hrun' as (pre & l1 & l2 & l3 & name & s & e & -> & Hrest); [| lia].
    exists ((l :: skipped) ++ pre), l1, l2, l3, name, s, e.
    split; [by rewrite <- app_assoc | done]. }
  destruct stdin as [|line1 stdin1]; [done |].
  cbn [analyze_stock] in Hrun. unfold validate_ticker in Hrun.
  destruct (longName (upper (strip line1))) as [name|] eqn:Hname.
  2: { by apply (Hagain [line1]) in Hrun. }
  destruct stdin1 as [|line2 stdin2]; [done |].
  unfold validate_date at 1 in Hrun.
  destruct (strptime_Y_m_d (strip line2)) as [start_date|] eqn:Hstart.
  2: { by apply (Hagain [line1; line2]) in Hrun. }
  destruct stdin2 as [|line3 stdin3]; [done |].
  unfold validate_date in Hrun.
  destruct (strptime_Y_m_d (strip line3)) as [end_date|] eqn:Hend.
  2: { by apply (Hagain [line1; line2; line3]) in Hrun. }
  unfold date_ge in Hrun.
  destruct (date_lt start_date end_date) eqn:Horder; cbn [negb] in Hrun.
  2: { by apply (Hagain [line1; line2; line3]) in Hrun. }
  destruct (date_gt start_date today) eqn:Hstart_today; cbn [orb] in Hrun.
  { by apply (Hagain [line1; line2; line3]) in Hrun. }
  destruct (date_gt end_date today) eqn:Hend_today.
  { by apply (Hagain [line1; line2; line3]) in Hrun. }
  destruct (stock_summary_statistics _ start_date end_date) as [ss|] eqn:Hss.
  2: { by apply (Hagain [line1; line2; line3]) in Hrun. }
  destruct (record_stock _ _ _ _ _ _ _) as [[r1 stocks1] w4 | e w4] eqn:Hrec; [| done].
  cbn [obind] in Hrun. injection Hrun as <- <- <- <-.
  destruct (record_stock_inv _ _ _ _ _ _ _ _ _ _ Hrec) as [-> _].
  by exists [], line1, line2, line3, name, start_date, end_date.
Qed.

(** X7: on a list of computed records [analyze_stock] stops only on the end of
    the input; whether it stops or returns, no file has been touched; it returns
    only after three lines or more, and on fewer than three lines it does stop. *)
Theorem analyze_stock_computed (stocks : list dict) (stdin : list string) (w : world) :
  Forall analyzed stocks →
  (∀ e w', analyze_stock stocks summary_statistics_titles stdin w = Raise e w' →
           e = EOFError ∧ files w' = files w) ∧
  (∀ r stocks' rest w',
     analyze_stock stocks summary_statistics_titles stdin w = Ret ((r, stocks'), rest) w' →
     (length rest + 3 ≤ length stdin)%nat ∧ files w' = files w) ∧
  ((length stdin < 3)%nat →
   ∃ w', analyze_stock stocks summary_statistics_titles stdin w = Raise EOFError w').
Proof.
  intros Hstocks.
  pose proof (analyze_stock_post stocks (length stdin) Hstocks stdin w (le_n _)) as Hpost.
  destruct (analyze_stock stocks summary_statistics_titles stdin w)
    as [[[r stocks'] rest] w' | e w'].
  - destruct Hpost as (Hr & Hlist & Hkey & Hlen & Hfiles).
    split; [done |]. split; [| lia].
    intros r0 stocks0 rest0 w0 [= <- <- <- <-].
    done.
  - destruct Hpost as [-> Hfiles]. split; [by intros e0 w0 [= <- <-] |].
    split; [done |]. intros _. by exists w'.
Qed.

End provenance.

(** *** Reading back what was written *)





Lemma DictReader_snoc (header : list string) (records : csv_file) (row : list string) :
  row ≠ [] →
  DictReader ((header :: records) ++ [row]) =
  DictReader (header :: records) ++ [reader_row header row].
Proof.
  intros Hrow. simpl. rewrite filter_app, fmap_app. f_equal.
  by rewrite filter_cons_True.
Qed.



Lemma stat_values_not_nil (sum_stats : dict) : stat_values sum_stats ≠ [].
Proof. done. Qed.

(** *** Saving a record to its own file *)

Lemma record_file_key (sum_stats : dict) (stat1 stat2 : string) :
  sum_stats !! "stat1" = Some stat1 → sum_stats !! "stat2" = Some stat2 →
  record_file sum_stats = stock_filename stat1 stat2.
Proof. intros Hstat1 Hstat2. unfold record_file. by rewrite Hstat1, Hstat2. Qed.

Lemma files_saved_one (filename : string) (content : csv_file) (w : world) :
  files (saved_one filename content w) = <[filename := content]> (files w).
Proof. reflexivity. Qed.





(** *** An empty file of the record's name *)

Lemma DictReader_header_only (header : list string) : DictReader [header] = [].
Proof. reflexivity. Qed.

Lemma save_one_headerless (sum_stats : dict) (stat1 stat2 : string) (w : world)
    (content : csv_file) :
  dom sum_stats = stat_keys →
  sum_stats !! "stat1" = Some stat1 → sum_stats !! "stat2" = Some stat2 →
  files w !! stock_filename stat1 stat2 = Some content → DictReader content = [] →
  save_one_stock_to_csv sum_stats summary_statistics_titles w =
  Ret () (saved_one (stock_filename stat1 stat2) (content ++ [stat_values sum_stats]) w).
Proof.
  intros Hdom Hstat1 Hstat2 Hfile Hrows.
  destruct (save_one_unfold sum_stats stat1 stat2 w Hdom Hstat1 Hstat2)
    as (new_row & Hwrite & _ & ->).
  cbv zeta. rewrite Hfile, Hrows. cbn [find_duplicate default].
  rewrite bool_decide_true by done. by rewrite Hwrite.
Qed.

(** X17: an empty file of the record's name defeats the check for a
    duplicate.  The first save writes the row without a header, since the
    file is there; the second save reads that row as the header, finds no
    row, and writes the row again; and the third save reads the second row
    under the names of the first and, as no value of the record is the text
    [date_range], stops with [KeyError]. *)
Theorem save_one_stock_to_csv_empty_file (sum_stats : dict) (w : world) :
  dom sum_stats = stat_keys →
  files w !! record_file sum_stats = Some [] →
  "date_range" ∉ stat_values sum_stats →
  ∃ w1 w2,
    save_one_stock_to_csv sum_stats summary_statistics_titles w = Ret () w1 ∧
    files w1 !! record_file sum_stats = Some [stat_values sum_stats] ∧
    save_one_stock_to_csv sum_stats summary_statistics_titles w1 = Ret () w2 ∧
    files w2 !! record_file sum_stats =
      Some [stat_values sum_stats; stat_values sum_stats] ∧
    save_one_stock_to_csv sum_stats summary_statistics_titles w2 =
      Raise (KeyError "date_range") w2.
Proof.
  intros Hdom Hfile Hvalues.
  destruct (record_lookup sum_stats 0 Hdom) as [stat1 Hstat1]; [lia |].
  destruct (record_lookup sum_stats 1 Hdom) as [stat2 Hstat2]; [lia |].
  change (stat_key 0) with "stat1" in Hstat1. change (stat_key 1) with "stat2" in Hstat2.
  rewrite (record_file_key sum_stats stat1 stat2) in * by done.
  set (filename := stock_filename stat1 stat2) in *.
  set (row := stat_values sum_stats) in *.
  set (w1 := saved_one filename [row] w).
  set (w2 := saved_one filename [row; row] w1).
  assert (files w1 !! filename = Some [row]) as Hfile1
    by (unfold w1; by rewrite files_saved_one, lookup_insert_eq).
  assert (files w2 !! filename = Some [row; row]) as Hfile2
    by (unfold w2; by rewrite files_saved_one, lookup_insert_eq).
  exists w1, w2. split; [| split; [done | split; [| split; [done |]]]].
  - by apply (save_one_headerless sum_stats stat1 stat2 w []).
  - by apply (save_one_headerless sum_stats stat1 stat2 w1 [row]).
  - destruct (save_one_unfold sum_stats stat1 stat2 w2 Hdom Hstat1 Hstat2)
      as (new_row & _ & _ & ->).
    cbv zeta. fold filename. rewrite Hfile2.
    change [row; row] with ([row] ++ [row]).
    rewrite DictReader_snoc by apply stat_values_not_nil.
    rewrite DictReader_header_only, app_nil_l.
    rewrite find_duplicate_KeyError; [done |].
    apply eq_None_not_Some. by rewrite reader_row_fields.
Qed.

(** *** The other menu loops *)


(** *** Listing and saving all records *)

(** X12: [list_stocks] on computed records prints the heading and then, for each
    record in the order of the list, its fourteen statistics, each after its
    title, and the separator; it raises nothing and touches no file. *)
Theorem list_stocks_lines `{Env} (stocks : list dict) (w : world) :
  Forall analyzed stocks →
  list_stocks stocks summary_statistics_titles w =
  Ret () (print_all
            ((nl +:+ "All Analyzed Stocks:" +:+ nl +:+ "-----****-----") ::
             (stock ← stocks;
              stat_lines summary_statistics_titles stock ++ ["--" +:+ nl])) w).
Proof.
  intros Hstocks. unfold list_stocks. by rewrite list_stocks_loop_lines.
Qed.


(** *** The graph of a record *)

(** X13: [view_stock_graph] on computed records: the number it takes a record
    with is a number of the list and the date range of the record splits in two,
    so no [IndexError], [KeyError] or [ValueError] is raised; the call stops
    only on the end of the input or through [exit_menu], and then has shown no
    figure; when it returns it has read at least one line and shown no figure or
    one, whose title is made of the ticker text of a record of the list, one of
    the five statistics and the date range of that record.  No file is touched. *)
Theorem view_stock_graph_computed `{Env} (stocks : list dict) (stdin : list string)
    (w : world) :
  Forall analyzed stocks →
  (∀ e w', view_stock_graph stocks stdin w = Raise e w' →
           (e = EOFError ∨ e = SystemExit exiting) ∧
           files w' = files w ∧ figures w' = figures w) ∧
  (∀ to_main rest w',
     view_stock_graph stocks stdin w = Ret (to_main, rest) w' →
     (length rest < length stdin)%nat ∧ files w' = files w ∧
     (figures w' = figures w ∨
      ∃ stock stat1 stat2 graph_stat,
        stock ∈ stocks ∧ stock !! "stat1" = Some stat1 ∧
        stock !! "stat2" = Some stat2 ∧ (1 ≤ graph_stat ≤ 5)%Z ∧
        figures w' =
          figures w ++
          [stat1 +:+ " " +:+ graph_options graph_stat +:+ " from " +:+ stat2])).
Proof.
  intros Hstocks. pose proof (view_stock_graph_post stocks stdin w Hstocks) as Hpost.
  destruct (view_stock_graph stocks stdin w) as [[to_main rest] w' | e w'].
  - split; [done |]. by intros to_main0 rest0 w0 [= <- <- <-].
  - split; [| done]. by intros e0 w0 [= <- <-].
Qed.

(** *** The name of the file of a record *)

Lemma split_go_space_piece (s rest cur : string) :
  contains_char " " s = false →
  split_go " " 0 cur (s +:+ rest) = split_go " " 0 (String.rev_app s cur) rest.
Proof.
  revert cur. induction s as [|c s IH]; intros cur Hs; [done |].
  cbn [contains_char] in Hs. apply orb_false_iff in Hs as [Hc Hs].
  rewrite string_app_cons. cbn [split_go startswith String.rev_app].
  rewrite Ascii.eqb_sym, Hc. cbn [andb]. by apply IH.
Qed.

Lemma split_space_first (a b : string) :
  contains_char " " a = false →
  head (split " " (a +:+ " " +:+ b)) = Some a.
Proof.
  intros Ha. unfold split. rewrite split_go_space_piece by done.
  rewrite string_app_cons, string_app_nil_l. cbn [split_go startswith].
  rewrite startswith_nil. cbn [Ascii.eqb Bool.eqb andb head].
  by rewrite rev_rev_app.
Qed.

(** X14: the name of the file of a record has no space and ends in [.csv],
    whatever the two texts it is made from. *)
Theorem stock_filename_no_space (stat1 stat2 : string) :
  contains_char " " (stock_filename stat1 stat2) = false ∧
  endswith (stock_filename stat1 stat2) ".csv" = true.
Proof.
  unfold stock_filename, split.
  destruct (split_space_head stat1 "" eq_refl) as (piece & pieces & -> & Hpiece).
  cbn [head default from_option id]. split.
  - rewrite !contains_char_app, Hpiece, replace_no_old by done. reflexivity.
  - apply endswith_spec. exists (piece +:+ "_" +:+ replace " " "_" stat2).
    by rewrite !string_app_assoc.
Qed.

(** X15: for a record computed for a ticker without a space, the file is named
    by the ticker and the first and the last trading day of the table, with
    underscores between them. *)
Theorem record_file_computed `{Env} (tk : ticker_info) (start_date end_date : date)
    (r : dict) :
  contains_char " " (ticker tk) = false →
  stock_summary_statistics tk start_date end_date = Some r →
  ∃ first final,
    head (history (ticker tk) start_date end_date) = Some first ∧
    last (history (ticker tk) start_date end_date) = Some final ∧
    record_file r =
      ticker tk +:+ "_" +:+ isoformat (bar_date first) +:+ "_to_" +:+
      isoformat (bar_date final) +:+ ".csv".
Proof.
  intros Hticker Hr. unfold stock_summary_statistics in Hr.
  destruct (history (ticker tk) start_date end_date) as [|first rest]; [done |].
  destruct (last (first :: rest)) as [final|]; [| done].
  injection Hr as <-. exists first, final. split; [done |]. split; [done |].
  unfold record_file, sum_stats_of. simplify_map_eq. cbn [default].
  unfold stock_filename.
  change (" (" +:+ long_name tk +:+ ")") with (" " +:+ "(" +:+ long_name tk +:+ ")").
  rewrite split_space_first by done. cbn [default from_option id].
  rewrite !replace_app.
  rewrite (replace_id _ _ (isoformat (bar_date first))) by apply isoformat_no_space.
  rewrite (replace_id _ _ (isoformat (bar_date final))) by apply isoformat_no_space.
  by rewrite !string_app_assoc.
Qed.

(** *** The statements on sample runs *)

Section samples.
#[local] Existing Instance Sample.env.

Lemma aapl_analyzed : analyzed (H := Sample.env) Sample.aapl.
Proof.
  exists (TickerInfo "AAPL" "Apple Inc."), (Date 2024 1 1), (Date 2024 1 5).
  reflexivity.
Defined.

Lemma session_inv_reachable_witness : session_inv (H := Sample.env) Runs.in_stock_menu.
Proof.
  apply (session_inv_reachable (H := Sample.env)).
  exists 2%nat, Inputs.session_input, Sample.empty_world, Runs.in_stock_menu_console.
  reflexivity.
Defined.


Lemma main_rounds_all_stocks_witness :
  all_stocks Runs.in_stock_menu `prefix_of` all_stocks Inputs.session_end.
Proof.
  apply (main_rounds_all_stocks (H := Sample.env) 1 Runs.in_stock_menu
           Inputs.session_end Runs.in_stock_menu_console Inputs.session_console).
  reflexivity.
Defined.

Lemma analyze_stock_returns_witness :
  ∃ pre line1 line2 line3 name start_date end_date,
    Runs.analysis_input = pre ++ line1 :: line2 :: line3 :: ["3"] ∧
    longName (upper (strip line1)) = Some name ∧
    strptime_Y_m_d (strip line2) = Some start_date ∧
    strptime_Y_m_d (strip line3) = Some end_date ∧
    date_lt start_date end_date = true ∧
    date_gt start_date today = false ∧ date_gt end_date today = false ∧
    stock_summary_statistics (TickerInfo (upper (strip line1)) name)
      start_date end_date = Some Sample.aapl.
Proof.
  apply (analyze_stock_returns (H := Sample.env) [] summary_statistics_titles
           Runs.analysis_input Sample.empty_world Sample.aapl [Sample.aapl] ["3"]
           Runs.analysis_console).
  reflexivity.
Defined.

Lemma aapl_list_analyzed : Forall analyzed [Sample.aapl].
Proof. constructor; [exact aapl_analyzed | constructor]. Defined.

Lemma analyze_stock_computed_witness :
  ∃ w', analyze_stock [Sample.aapl] summary_statistics_titles ["aapl"; "2024-01-01"]
          Sample.empty_world = Raise EOFError w'.
Proof.
  destruct (analyze_stock_computed [Sample.aapl] ["aapl"; "2024-01-01"]
              Sample.empty_world aapl_list_analyzed) as (_ & _ & Hstops).
  apply Hstops. simpl. lia.
Defined.





Lemma aapl_values_no_date_range : "date_range" ∉ stat_values Sample.aapl.
Proof. apply (bool_decide_unpack _). vm_compute. exact I. Defined.

Lemma save_one_stock_to_csv_empty_file_witness :
  ∃ w1 w2,
    save_one_stock_to_csv Sample.aapl summary_statistics_titles Runs.empty_file =
      Ret () w1 ∧
    files w1 !! record_file Sample.aapl = Some [stat_values Sample.aapl] ∧
    save_one_stock_to_csv Sample.aapl summary_statistics_titles w1 = Ret () w2 ∧
    files w2 !! record_file Sample.aapl =
      Some [stat_values Sample.aapl; stat_values Sample.aapl] ∧
    save_one_stock_to_csv Sample.aapl summary_statistics_titles w2 =
      Raise (KeyError "date_range") w2.
Proof.
  apply (save_one_stock_to_csv_empty_file Sample.aapl Runs.empty_file);
    [reflexivity | reflexivity | exact aapl_values_no_date_range].
Defined.

Lemma list_stocks_lines_witness :
  list_stocks [Sample.aapl] summary_statistics_titles Sample.empty_world =
  Ret () (print_all
            ((nl +:+ "All Analyzed Stocks:" +:+ nl +:+ "-----****-----") ::
             (stock ← [Sample.aapl];
              stat_lines summary_statistics_titles stock ++ ["--" +:+ nl]))
            Sample.empty_world).
Proof.
  exact (list_stocks_lines [Sample.aapl] Sample.empty_world aapl_list_analyzed).
Defined.


Lemma view_stock_graph_computed_witness :
  (length ["4"] < length Runs.graph_input)%nat ∧
  files Runs.graph_console = files Sample.empty_world ∧
  (figures Runs.graph_console = figures Sample.empty_world ∨
   ∃ stock stat1 stat2 graph_stat,
     stock ∈ [Sample.aapl] ∧ stock !! "stat1" = Some stat1 ∧
     stock !! "stat2" = Some stat2 ∧ (1 ≤ graph_stat ≤ 5)%Z ∧
     figures Runs.graph_console =
       figures Sample.empty_world ++
       [stat1 +:+ " " +:+ graph_options graph_stat +:+ " from " +:+ stat2]).
Proof.
  destruct (view_stock_graph_computed [Sample.aapl] Runs.graph_input Sample.empty_world
              aapl_list_analyzed) as [_ Hreturns].
  exact (Hreturns false ["4"] Runs.graph_console eq_refl).
Defined.

Lemma record_file_computed_witness :
  ∃ first final,
    head (history "AAPL" (Date 2024 1 1) (Date 2024 1 5)) = Some first ∧
    last (history "AAPL" (Date 2024 1 1) (Date 2024 1 5)) = Some final ∧
    record_file Sample.aapl =
      "AAPL" +:+ "_" +:+ isoformat (bar_date first) +:+ "_to_" +:+
      isoformat (bar_date final) +:+ ".csv".
Proof.
  apply (record_file_computed (TickerInfo "AAPL" "Apple Inc.") (Date 2024 1 1)
           (Date 2024 1 5) Sample.aapl); reflexivity.
Defined.

End samples.
